(** * A shallow embedding of parts of ixdat

    Modelled here:
    - [ixdat/readers/zilien.py]: splitting a Zilien TSV file into series blocks
      ([_get_series_splits]), splitting the EC-lab block into technique runs
      ([_biologic_dataset_part], [_get_biologic_splits]), parsing metadata lines,
      creating series objects, merging aliases, the read-once guard of
      [ZilienTSVReader.read], and the mass column lookup of
      [ZilienSpectrumReader.read]; further [to_snake_case], [to_mass],
      [_form_names_and_unit], [_read_metadata], [_zilien_dataset_part],
      [_form_series] with the alias merge of [read], the file-stem time stamp
      of [read], the names of [series_list_from_tmp], and the time stamp
      scan of [ZilienSpectrumReader.read];
    - [ixdat/techniques/cv.py]: the cycle counter of [redefine_cycle], its
      shift of the old cycle numbers, and the key handling of
      [__getitem__];
    - [ixdat/spectra.py]: building a [Spectrum] from data, its views, and
      [data_objects].

    Numeric arrays are lists of [Z]: the code only compares, adds, multiplies
    by 1000 and negates their entries. NaN, where it matters, is [None]. *)

From Stdlib Require Import ZArith Lia.
From stdpp Require Import base list gmap strings.

Open Scope Z_scope.

(* ------------------------------------------------------------------ *)
(** ** Python exceptions and fallible results *)

Inductive py_exc :=
| TypeError
| ValueError
| KeyError
| IndexError
| ReadError
| AttributeError.

Inductive result (A : Type) :=
| Ok (a : A)
| Err (e : py_exc).
Arguments Ok {A} a.
Arguments Err {A} e.

(* ------------------------------------------------------------------ *)
(** ** [itertools.groupby] and [_get_biologic_splits] *)

Module Biologic.

(** [groupby(xs)] with the identity key: consecutive equal elements form one
    group. [groupby_go k grp xs] holds the current key [k] and the elements
    [grp] collected for it so far. *)
Fixpoint groupby_go (k : Z) (grp : list Z) (xs : list Z) : list (Z * list Z) :=
  match xs with
  | [] => [(k, grp)]
  | x :: xs' =>
      if Z.eqb x k then groupby_go k (grp ++ [x]) xs'
      else (k, grp) :: groupby_go x [x] xs'
  end.

Definition groupby (xs : list Z) : list (Z * list Z) :=
  match xs with
  | [] => []
  | x :: xs' => groupby_go x [x] xs'
  end.

(** The loop of [_get_biologic_splits], from [index]. *)
Fixpoint splits_from (index : nat) (groups : list (Z * list Z)) : list (nat * nat) :=
  match groups with
  | [] => []
  | (_, group) :: gs =>
      let group_length := length group in
      (index, (index + group_length)%nat) :: splits_from (index + group_length) gs
  end.

(** [ZilienTSVReader._get_biologic_splits(technique_numbers)] *)
Definition get_biologic_splits (technique_numbers : list Z) : list (nat * nat) :=
  splits_from 0 (groupby technique_numbers).

(** [split_vector = exp_nums * 1000 + tech_nums] of [_biologic_dataset_part],
    where [exp_nums] and [tech_nums] are the first [count] rows of the
    experiment and technique columns. *)
Definition split_vector (count : nat) (exp_nums tech_nums : list Z) : list Z :=
  zip_with (fun e t => e * 1000 + t) (take count exp_nums) (take count tech_nums).

(** The row indices [begin, end) of a run. *)
Definition run_rows (r : nat * nat) : list nat := seq r.1 (r.2 - r.1).

End Biologic.


(* ------------------------------------------------------------------ *)
(** ** [_get_series_splits] *)

Module SeriesSplits.

(** [itertools.zip_longest(xs, ys)] with the fill value [None]. *)
Fixpoint zip_longest {A B : Type} (xs : list A) (ys : list B) : list (option A * option B) :=
  match xs with
  | [] => map (fun y => (None, Some y)) ys
  | x :: xs' =>
      match ys with
      | [] => map (fun x => (Some x, None)) xs
      | y :: ys' => (Some x, Some y) :: zip_longest xs' ys'
      end
  end.

(** The [enumerate] loop: indices and names of the non-empty series headers,
    counting from [index]. *)
Fixpoint collect_headers (index : nat) (series_headers : list string)
    : list nat * list string :=
  match series_headers with
  | [] => ([], [])
  | series_header :: rest =>
      let '(idx, names) := collect_headers (S index) rest in
      if String.eqb series_header "" then (idx, names)
      else (index :: idx, series_header :: names)
  end.

(** [ZilienTSVReader._get_series_splits(series_headers)]: the
    [(begin, end)] pairs and the non-empty headers. *)
Definition get_series_splits (series_headers : list string)
    : list (option nat * option nat) * list string :=
  let '(series_split_indices, nonempty_headers) := collect_headers 0 series_headers in
  (zip_longest series_split_indices (drop 1 series_split_indices), nonempty_headers).

(** The columns that the slice [data[:, begin:end]] of [_form_series] takes
    out of a row of [L] columns ([None] bounds are the ends of the row). *)
Definition slice_columns (L : nat) (r : option nat * option nat) : list nat :=
  let b := default 0%nat r.1 in
  let e := default L r.2 in
  seq b (e - b).

(** The number of empty cells at the start of a header row. *)
Fixpoint leading_empty (series_headers : list string) : nat :=
  match series_headers with
  | [] => 0
  | h :: rest => if String.eqb h "" then S (leading_empty rest) else 0
  end.

End SeriesSplits.


(* ------------------------------------------------------------------ *)
(** ** String helpers: [str.strip(c)] and [str.split(sep)] *)

Module PyStr.

Definition tab : Ascii.ascii := Ascii.ascii_of_nat 9.
Definition newline : Ascii.ascii := Ascii.ascii_of_nat 10.

Fixpoint lstrip_chars (c : Ascii.ascii) (cs : list Ascii.ascii) : list Ascii.ascii :=
  match cs with
  | [] => []
  | c' :: rest => if Ascii.eqb c' c then lstrip_chars c rest else cs
  end.

(** [s.strip(c)] for a one-character [c]: drop it at both ends. *)
Definition strip (c : Ascii.ascii) (s : string) : string :=
  String.string_of_list_ascii
    (rev (lstrip_chars c (rev (lstrip_chars c (String.list_ascii_of_string s))))).

(** [s.split(sep)] for a one-character [sep]. *)
Fixpoint split (sep : Ascii.ascii) (s : string) : list string :=
  match s with
  | EmptyString => [""]
  | String c rest =>
      let parts := split sep rest in
      if Ascii.eqb c sep then "" :: parts
      else match parts with
           | p :: ps => String c p :: ps
           | [] => [String c ""]
           end
  end.

End PyStr.

(* ------------------------------------------------------------------ *)
(** ** [parse_metadata_line] *)

Module Metadata.

Section Parse.
(** Python's [int(...)] and [float(...)] on a string: they either convert or
    raise. *)
Context {float : Type}.
Variable py_int : string -> result Z.
Variable py_float : string -> result float.

Inductive meta_value :=
| MString (s : string)
| MInt (z : Z)
| MFloat (f : float)
| MBool (b : bool).

Definition parse_metadata_line (line : string) : result (string * meta_value) :=
  match PyStr.split PyStr.tab (PyStr.strip PyStr.newline line) with
  | [name; comment; attach_to_series; type_as_str; value] =>
      let full_name :=
        if String.eqb attach_to_series "" then name
        else String.append attach_to_series (String.append "_" name) in
      if String.eqb type_as_str "string" then Ok (full_name, MString value)
      else if String.eqb type_as_str "int" then
        match py_int value with Ok z => Ok (full_name, MInt z) | Err e => Err e end
      else if String.eqb type_as_str "double" then
        match py_float value with Ok f => Ok (full_name, MFloat f) | Err e => Err e end
      else if String.eqb type_as_str "bool" then
        Ok (full_name, MBool (String.eqb value "true"))
      else Err TypeError
  | _ => Err ValueError (* unpacking into five names *)
  end.

End Parse.
End Metadata.

(* ------------------------------------------------------------------ *)
(** ** [_create_series_objects] *)

Module SeriesObjects.

Inductive series :=
| TimeSeries (name unit_name : string) (data : list (option Z))
| ValueSeries (name unit_name : string) (data : list (option Z)) (tseries : series).

Definition is_meta_column (column_header : string) : bool :=
  String.eqb column_header "experiment_number" || String.eqb column_header "technique_number".

Definition is_time_column (column_header : string) : bool :=
  String.eqb column_header "Time [s]" || String.eqb column_header "time/s".

(** [np.isnan(column_data).all()], NaN being [None]. *)
Definition all_nan (column_data : list (option Z)) : bool :=
  forallb (fun x => match x with None => true | Some _ => false end) column_data.

Section Create.
(** [names_and_units] and the columns of [data_rows_split]. *)
Variable names_and_units : list (string * string * option string).
Variable data_columns : list (list (option Z)).

Fixpoint create_go (column_number : nat) (column_headers : list string)
    (time_series : option series) : result (list series) :=
  match column_headers with
  | [] => Ok []
  | column_header :: rest =>
      if is_meta_column column_header then create_go (S column_number) rest time_series
      else
        match data_columns !! column_number with
        | None => Err IndexError
        | Some column_data =>
            if all_nan column_data then create_go (S column_number) rest time_series
            else
              match names_and_units !! column_number with
              | None => Err IndexError
              | Some (series_name, unit, _) =>
                  if is_time_column column_header then
                    let series_object := TimeSeries series_name unit column_data in
                    match create_go (S column_number) rest (Some series_object) with
                    | Ok l => Ok (series_object :: l)
                    | Err e => Err e
                    end
                  else
                    match time_series with
                    | None => Err ValueError
                    | Some ts =>
                        let series_object := ValueSeries series_name unit column_data ts in
                        match create_go (S column_number) rest time_series with
                        | Ok l => Ok (series_object :: l)
                        | Err e => Err e
                        end
                    end
              end
        end
  end.

End Create.

(** [ZilienTSVReader._create_series_objects(column_headers, names_and_units,
    data_rows_split)] *)
Definition create_series_objects (column_headers : list string)
    (names_and_units : list (string * string * option string))
    (data_columns : list (list (option Z))) : result (list series) :=
  create_go names_and_units data_columns 0 column_headers None.

End SeriesObjects.

(* ------------------------------------------------------------------ *)
(** ** The column lookup of [ZilienSpectrumReader.read] *)

Module SpectrumReader.

Definition ZILIEN_MASS_COLUMN_NAMES : list string := ["Mass  [AMU]"; "Mass [AMU]"].

(** The [for ... else] loop: the first name that is a column of the frame. *)
Fixpoint find_column (names df_columns : list string) : option string :=
  match names with
  | [] => None
  | x_name :: rest =>
      if bool_decide (x_name ∈ df_columns) then Some x_name else find_column rest df_columns
  end.

(** The x and y column names the reader takes from a frame with columns
    [df_columns]: [ReadError] without a mass column, [KeyError] without
    ["Current [A]"]. *)
Definition spectrum_columns (df_columns : list string) : result (string * string) :=
  match find_column ZILIEN_MASS_COLUMN_NAMES df_columns with
  | None => Err ReadError
  | Some x_name =>
      let y_name := "Current [A]" in
      if bool_decide (y_name ∈ df_columns) then Ok (x_name, y_name) else Err KeyError
  end.

End SpectrumReader.


(* ------------------------------------------------------------------ *)
(** ** [CyclicVoltammagram.redefine_cycle] with a given [start_potential] *)

Module Cycle.

(** [np.argmax(mask)] for a boolean mask that contains [True]; [None] when
    [True not in mask]. *)
Fixpoint first_true {A : Type} (p : A -> bool) (xs : list A) : option nat :=
  match xs with
  | [] => None
  | x :: rest => if p x then Some 0%nat else option_map S (first_true p rest)
  end.

(** [cycle_vec[n:] = c] *)
Fixpoint set_from (n c : nat) (cycle_vec : list nat) : list nat :=
  match cycle_vec with
  | [] => []
  | x :: rest =>
      match n with
      | O => c :: set_from 0 c rest
      | S n' => x :: set_from n' c rest
      end
  end.

(** The [while n < N] loop. Every pass that does not [break] moves [n]
    forward by at least one, so [N + 1] passes of fuel are enough
    ([cycle_loop_fuel] below). *)
Fixpoint cycle_loop (fuel : nat) (v : list Z) (start_potential : Z)
    (N_points N n c : nat) (cycle_vec : list nat) : list nat :=
  match fuel with
  | O => cycle_vec
  | S fuel' =>
      if Nat.ltb n N then
        match first_true (fun x => x <? start_potential) (drop n v) with
        | None => cycle_vec
        | Some i =>
            let n := (n + i + N_points)%nat in
            match first_true (fun x => start_potential <? x) (drop n v) with
            | None => cycle_vec
            | Some j =>
                let n := (n + j)%nat in
                let c := S c in
                let cycle_vec := set_from n c cycle_vec in
                cycle_loop fuel' v start_potential N_points N (n + N_points) c cycle_vec
            end
        end
      else cycle_vec
  end.

(** The [else] branch of [redefine_cycle(start_potential, redox, N_points)]:
    the data of the new [cycle] series, for times [t] and potentials [v]. *)
Definition redefine_cycle (t v : list Z) (start_potential : Z) (redox : bool)
    (N_points : nat) : list nat :=
  let N := length t in
  let '(start_potential, v) :=
    if redox then (start_potential, v) else (- start_potential, map Z.opp v) in
  cycle_loop (S N) v start_potential N_points N 0 0 (replicate N 0%nat).

End Cycle.


(* ------------------------------------------------------------------ *)
(** ** [Spectrum] over a store of Python lists *)

Module Spectra.

Inductive series :=
| DataSeries (name : string) (unit_name : option string) (data : list Z)
| TimeSeries (name : string) (unit_name : option string) (data : list Z) (tstamp : option Z).

Definition series_name (s : series) : string :=
  match s with DataSeries n _ _ | TimeSeries n _ _ _ => n end.
Definition series_unit_name (s : series) : option string :=
  match s with DataSeries _ u _ | TimeSeries _ u _ _ => u end.
Definition series_data (s : series) : list Z :=
  match s with DataSeries _ _ d | TimeSeries _ _ d _ => d end.

(** Modelled from the spec: the [Field] class of [ixdat/data_series.py]
    ({name, unit, data, axes}). Its [data] is the 2-D array of rows it is
    given and its [axes_series] attribute is the list object it is given,
    held by reference: [field_axes] is the location of that list. *)
Record field := mkField {
  field_name : string;
  field_unit_name : option string;
  field_data : list (list Z);
  field_axes : nat
}.

(** The objects a Python list of [data_objects] can hold. *)
Inductive obj :=
| OSeries (s : series)
| OField (f : field).

(** Python lists live in a store, so that two names for one list see each
    other's appends. *)
Record heap := mkHeap {
  lists : gmap nat (list obj);
  next_loc : nat
}.

(** A list literal: a new list object. *)
Definition new_list (h : heap) (l : list obj) : heap * nat :=
  (mkHeap (<[next_loc h := l]> (lists h)) (S (next_loc h)), next_loc h).

(** [Field(data=data, axes_series=[...], name=name, unit_name=unit_name)] *)
Definition make_field (h : heap) (data : list (list Z)) (axes_series : list obj)
    (name : string) (unit_name : option string) : heap * field :=
  let '(h', loc) := new_list h axes_series in
  (h', mkField name unit_name data loc).

Record spectrum := mkSpectrum {
  spectrum_name : string;
  spectrum_field : field
}.

(** [Spectrum.from_field(field, **kwargs)], [kwargs] holding an optional
    [name]. *)
Definition from_field (field : field) (name : option string) : spectrum :=
  mkSpectrum (default (field_name field) name) field.

(** [Spectrum.from_series(xseries, yseries, tstamp, **kwargs)] *)
Definition from_series (h : heap) (xseries yseries : series) (tstamp : option Z)
    (name : option string) : heap * spectrum :=
  let tseries := TimeSeries "spectrum time / [s]" (Some "s") [0] tstamp in
  let '(h', field) :=
    make_field h [series_data yseries] [OSeries xseries; OSeries tseries]
      (series_name yseries) (series_unit_name yseries) in
  (h', from_field field name).

(** [Spectrum.from_data(x, y, tstamp, x_name, y_name, x_unit_name,
    y_unit_name, **kwargs)] *)
Definition from_data (h : heap) (x y : list Z) (tstamp : option Z)
    (x_name y_name : string) (x_unit_name y_unit_name : option string)
    (name : option string) : heap * spectrum :=
  let xseries := DataSeries x_name x_unit_name x in
  let yseries := DataSeries y_name y_unit_name y in
  from_series h xseries yseries tstamp name.

(** [self.field.axes_series] *)
Definition axes_series (h : heap) (sp : spectrum) : list obj :=
  lists h !!! field_axes (spectrum_field sp).

(** [spec.x = spec.xseries.data = spec.field.axes_series[0].data] *)
Definition x (h : heap) (sp : spectrum) : result (list Z) :=
  match axes_series h sp !! 0%nat with
  | Some (OSeries s) => Ok (series_data s)
  | Some (OField _) => Err TypeError (* 2-D data, not an x vector *)
  | None => Err IndexError
  end.

(** [spec.y = spec.field.data[0]] *)
Definition y (h : heap) (sp : spectrum) : result (list Z) :=
  match field_data (spectrum_field sp) !! 0%nat with
  | Some row => Ok row
  | None => Err IndexError
  end.

(** [spec.tstamp = tseries.data[0] + tseries.tstamp], [tseries] being
    [spec.field.axes_series[1]]. *)
Definition tstamp (h : heap) (sp : spectrum) : result Z :=
  match axes_series h sp !! 1%nat with
  | Some (OSeries (TimeSeries _ _ data ts)) =>
      match data with
      | [] => Err IndexError
      | t0 :: _ => match ts with Some ts => Ok (t0 + ts) | None => Err TypeError end
      end
  | Some (OSeries (DataSeries _ _ _)) => Err AttributeError
  | Some (OField _) => Err AttributeError
  | None => Err IndexError
  end.

(** [np.array(rows).shape] for a list of equally long rows. *)
Definition shape (rows : list (list Z)) : list nat :=
  match rows with
  | [] => [0%nat]
  | r :: _ => [length rows; length r]
  end.

(** [len(axis.data)] for each axis of the field of [sp]. *)
Definition axis_lengths (h : heap) (sp : spectrum) : list nat :=
  map (fun o => match o with
                | OSeries s => length (series_data s)
                | OField f => length (field_data f)
                end) (axes_series h sp).

(** [Spectrum.data_objects]: [series_list = self.field.axes_series],
    [series_list.append(self.field)], [return series_list]. The result is the
    location of the list, which is the field's own [axes_series]. *)
Definition data_objects (h : heap) (sp : spectrum) : heap * nat :=
  let loc := field_axes (spectrum_field sp) in
  let series_list := lists h !!! loc in
  (mkHeap (<[loc := series_list ++ [OField (spectrum_field sp)]]> (lists h)) (next_loc h), loc).

End Spectra.


(* ------------------------------------------------------------------ *)
(** ** The alias table of [ZilienTSVReader.read] *)

Module Aliases.

(** A Python dict from standard names to lists of series names, in insertion
    order. *)
Definition odict := list (string * list string).

Fixpoint od_lookup (d : odict) (k : string) : option (list string) :=
  match d with
  | [] => None
  | (k', v) :: rest => if String.eqb k' k then Some v else od_lookup rest k
  end.

(** [d[k] += names] on a [defaultdict(list)] (also [d[k].append(x)] with
    [names = [x]]): extend the list of [k], or add [k] at the end. *)
Fixpoint od_extend (d : odict) (k : string) (names : list string) : odict :=
  match d with
  | [] => [(k, names)]
  | (k', v) :: rest =>
      if String.eqb k' k then (k', v ++ names) :: rest
      else (k', v) :: od_extend rest k names
  end.

(** [for standard_name, series_name in items: d[standard_name] += series_name] *)
Definition od_extend_all (d : odict) (items : odict) : odict :=
  fold_left (fun d '(standard_name, names) => od_extend d standard_name names) items d.

(** The measurement class asked for, and the two [issubclass] tests of
    [_form_series]: an EC-MS measurement is both an EC and an MS measurement
    (the docstring of [read]: reading as MS excludes the EC series, reading
    as EC excludes the MS series). *)
Inductive meas_cls := ECMSMeasurement | MSMeasurement | ECMeasurement.

Definition is_ec (cls : meas_cls) : bool :=
  match cls with ECMSMeasurement | ECMeasurement => true | MSMeasurement => false end.
Definition is_ms (cls : meas_cls) : bool :=
  match cls with ECMSMeasurement | MSMeasurement => true | ECMeasurement => false end.

Definition BIOLOGIC_SERIES_NAME : string := "EC-lab".

Definition ZILIEN_EC_ALIASES : odict :=
  [("t", ["Potential time [s]"]); ("raw_potential", ["Voltage [V]"]);
   ("raw_current", ["Current [mA]"]); ("cycle", ["Cycle [n]"])].

Definition ZILIEN_ALIASES (cls : meas_cls) : odict :=
  match cls with
  | ECMSMeasurement => ZILIEN_EC_ALIASES
  | MSMeasurement => []
  | ECMeasurement => ZILIEN_EC_ALIASES
  end.

Definition char_C : Ascii.ascii := Ascii.ascii_of_nat 67.
Definition char_M : Ascii.ascii := Ascii.ascii_of_nat 77.

Definition is_digit (c : Ascii.ascii) : bool :=
  let n := Ascii.nat_of_ascii c in (Nat.leb 48 n && Nat.leb n 57)%bool.

(** [MASS_SERIES_RE = "^C[0-9]+M([0-9]+)$"]: after the [C], the digits of
    the channel, then [M] and the digits of the mass. *)
Fixpoint mass_after_channel (cs : list Ascii.ascii) (seen_digit : bool) : option (list Ascii.ascii) :=
  match cs with
  | [] => None
  | c :: rest =>
      if is_digit c then mass_after_channel rest true
      else if (seen_digit && Ascii.eqb c char_M)%bool then
        match rest with
        | [] => None
        | _ => if forallb is_digit rest then Some rest else None
        end
      else None
  end.

(** The final [$] of [MASS_SERIES_RE] matches at the end of the string, and
    also before a newline that is its last character: the digits of the
    mass then end just before that newline. *)
Definition mass_to_end (rest : list Ascii.ascii) : option (list Ascii.ascii) :=
  match mass_after_channel rest false with
  | Some m => Some m
  | None =>
      if bool_decide (last rest = Some PyStr.newline)
      then mass_after_channel (removelast rest) false
      else None
  end.

(** [to_mass(string)] *)
Definition to_mass (s : string) : option string :=
  match String.list_ascii_of_string s with
  | c :: rest =>
      if Ascii.eqb c char_C then
        option_map String.string_of_list_ascii (mass_to_end rest)
      else None
  | [] => None
  end.

(** The aliases of [_zilien_dataset_part] from its [names_and_units]:
    [if standard_name: aliases[standard_name].append(series_name)]. *)
Definition zilien_aliases_part (names_and_units : list (string * string * option string)) : odict :=
  fold_left (fun aliases '(series_name, _, standard_name) =>
               match standard_name with
               | Some sn => if String.eqb sn "" then aliases else od_extend aliases sn [series_name]
               | None => aliases
               end) names_and_units [].

(** The alias half of [_form_series]: each block is its series header and the
    [names_and_units] of its columns. *)
Definition form_series_aliases (cls : meas_cls)
    (blocks : list (string * list (string * string * option string))) : odict :=
  fold_left (fun aliases '(series_header, names_and_units) =>
               if (negb (is_ec cls) &&
                   (String.eqb series_header "pot" || String.eqb series_header BIOLOGIC_SERIES_NAME))%bool
               then aliases
               else if (negb (is_ms cls) && bool_decide (is_Some (to_mass series_header)))%bool
               then aliases
               else if String.eqb series_header BIOLOGIC_SERIES_NAME then aliases
               else od_extend_all aliases (zilien_aliases_part names_and_units))
            blocks [].

(** The aliases passed to the measurement by [read]: the block aliases, then
    [aliases[standard_name] += general_aliases] for [ZILIEN_ALIASES[cls]]. *)
Definition read_aliases (cls : meas_cls)
    (blocks : list (string * list (string * string * option string))) : odict :=
  od_extend_all (form_series_aliases cls blocks) (ZILIEN_ALIASES cls).

End Aliases.

(* ------------------------------------------------------------------ *)
(** ** The read-once guard of [ZilienTSVReader.read] *)

Module TSVReader.

Section Read.
Context {args measurement : Type}.
(** The work of [read] before [self._path_to_file] is set (resolving [cls]
    and [technique], which can raise) and after it (opening and parsing the
    file and building the measurement). *)
Variable resolve_cls : args -> result args.
Variable parse_and_build : string -> args -> result measurement.

(** The reader's state that the guard looks at: [self._path_to_file] (a
    [Path], always truthy once set) and [self._measurement]. *)
Record reader := mkReader {
  path_to_file : option string;
  measurement_ : option measurement
}.

Definition new_reader : reader := mkReader None None.

(** [ZilienTSVReader.read(path_to_file, cls, name, **kwargs)] *)
Definition read (self : reader) (path : string) (a : args)
    : result (option measurement) * reader :=
  match path_to_file self with
  | Some _ => (Ok (measurement_ self), self)
  | None =>
      match resolve_cls a with
      | Err e => (Err e, self)
      | Ok a' =>
          let self := mkReader (Some path) (measurement_ self) in
          match parse_and_build path a' with
          | Err e => (Err e, self)
          | Ok m => (Ok (Some m), mkReader (path_to_file self) (Some m))
          end
      end
  end.

End Read.
End TSVReader.

(* ------------------------------------------------------------------ *)
(** ** More string helpers: [str.lower], [str.replace], [str.endswith],
    [in] and [" ".join] *)

Module PyText.

Definition space : Ascii.ascii := Ascii.ascii_of_nat 32.
Definition underscore : Ascii.ascii := Ascii.ascii_of_nat 95.
Definition slash : Ascii.ascii := Ascii.ascii_of_nat 47.
Definition dot : Ascii.ascii := Ascii.ascii_of_nat 46.
Definition lbracket : Ascii.ascii := Ascii.ascii_of_nat 91.
Definition rbracket : Ascii.ascii := Ascii.ascii_of_nat 93.

(** [c.lower()] on an ASCII character. *)
Definition lower_char (c : Ascii.ascii) : Ascii.ascii :=
  let n := Ascii.nat_of_ascii c in
  if (Nat.leb 65 n && Nat.leb n 90)%bool then Ascii.ascii_of_nat (n + 32) else c.

Definition is_upper (c : Ascii.ascii) : bool :=
  let n := Ascii.nat_of_ascii c in (Nat.leb 65 n && Nat.leb n 90)%bool.

(** [s.lower()] on an ASCII string: Python lowers exactly the letters [A] to
    [Z] of an ASCII string. (Outside ASCII, [str.lower] also lowers other
    letters, which this definition leaves alone; the reader lowers only the
    time column headers ["Time [s]"] and ["time/s"].) *)
Definition lower (s : string) : string :=
  String.string_of_list_ascii (map lower_char (String.list_ascii_of_string s)).

(** [s.replace(old, new)] for one-character [old] and [new]. *)
Definition replace_char (old new : Ascii.ascii) (s : string) : string :=
  String.string_of_list_ascii
    (map (fun c => if Ascii.eqb c old then new else c) (String.list_ascii_of_string s)).

(** [s.endswith(suffix)] *)
Definition ends_with (suffix s : string) : bool :=
  let n := String.length s in
  let k := String.length suffix in
  (Nat.leb k n && String.eqb (String.substring (n - k) k s) suffix)%bool.

(** [sub in s] *)
Fixpoint contains (sub s : string) : bool :=
  String.prefix sub s ||
  match s with
  | EmptyString => false
  | String _ rest => contains sub rest
  end.

(** [" ".join(parts)] *)
Definition join_space (parts : list string) : string :=
  String.concat (String space EmptyString) parts.

End PyText.

(* ------------------------------------------------------------------ *)
(** ** [to_snake_case] and [_form_names_and_unit] *)

Module Names.
Import PyText.

(** [to_snake_case(string)] *)
Definition to_snake_case (s : string) : string :=
  replace_char space underscore (lower s).

(** [$] of a Python regular expression: the end of the string, or a newline
    that is its last character. *)
Definition dollar (cs : list Ascii.ascii) : bool :=
  match cs with
  | [] => true
  | [c] => Ascii.eqb c PyStr.newline
  | _ => false
  end.

(** [\]$] *)
Definition rbracket_end (cs : list Ascii.ascii) : bool :=
  match cs with
  | c :: rest => (Ascii.eqb c rbracket && dollar rest)%bool
  | [] => false
  end.

(** [(.+?)\]$] where [acc] holds what the lazy group has taken so far; [.]
    takes anything but a newline. The group is returned. *)
Fixpoint zilien_unit_go (acc cs : list Ascii.ascii) : option (list Ascii.ascii) :=
  match cs with
  | [] => None
  | c :: rest =>
      if Ascii.eqb c PyStr.newline then None
      else if rbracket_end rest then Some (acc ++ [c])
      else zilien_unit_go (acc ++ [c]) rest
  end.

(** [(.+?) \[(.+?)\]$] at [cs]: the lazy first group takes one more character
    each time the rest fails. The second group is returned. *)
Fixpoint zilien_name_go (cs : list Ascii.ascii) : option (list Ascii.ascii) :=
  match cs with
  | [] => None
  | c :: rest =>
      if Ascii.eqb c PyStr.newline then None
      else
        match
          match rest with
          | c1 :: c2 :: rest' =>
              if (Ascii.eqb c1 space && Ascii.eqb c2 lbracket)%bool
              then zilien_unit_go [] rest' else None
          | _ => None
          end
        with
        | Some u => Some u
        | None => zilien_name_go rest
        end
  end.

(** Group 2 of [ZILIEN_COLUMN_HEADER_RE.match(column_header)], the regular
    expression being ["^(.+?) \[(.+?)\]$"]. *)
Definition zilien_unit (column_header : string) : option string :=
  option_map String.string_of_list_ascii
    (zilien_name_go (String.list_ascii_of_string column_header)).

(** The characters up to the first newline, and the rest. *)
Fixpoint dot_run (cs : list Ascii.ascii) : list Ascii.ascii * list Ascii.ascii :=
  match cs with
  | [] => ([], [])
  | c :: rest =>
      if Ascii.eqb c PyStr.newline then ([], cs)
      else let '(r, t) := dot_run rest in (c :: r, t)
  end.

(** [(.+)$]: the greedy group takes every character up to a newline; a
    shorter group leaves a character that [$] does not accept. *)
Definition greedy_to_end (cs : list Ascii.ascii) : option (list Ascii.ascii) :=
  let '(u, t) := dot_run cs in
  match u with
  | [] => None
  | _ => if dollar t then Some u else None
  end.

(** [(.+)/(.+)$] at [cs], [seen] telling whether the greedy first group has
    taken a character already: the group first tries to take [c] too, and only
    when that fails is [/] tried at [c]. The second group is returned. *)
Fixpoint biologic_name_go (seen : bool) (cs : list Ascii.ascii) : option (list Ascii.ascii) :=
  match cs with
  | [] => None
  | c :: rest =>
      if Ascii.eqb c PyStr.newline then None
      else
        match biologic_name_go true rest with
        | Some u => Some u
        | None => if (seen && Ascii.eqb c slash)%bool then greedy_to_end rest else None
        end
  end.

(** Group 2 of [BIOLOGIC_COLUMN_HEADER_RE.match(column_header)], the regular
    expression being ["^(.+)/(.+)$"]. *)
Definition biologic_unit (column_header : string) : option string :=
  option_map String.string_of_list_ascii
    (biologic_name_go false (String.list_ascii_of_string column_header)).

(** The [for option in ("setpoint", "value")] loop. *)
Definition setpoint_or_value (series_header : string) : option string :=
  fold_left (fun acc option => if ends_with option series_header then Some option else acc)
    ["setpoint"; "value"] None.

(** [ZilienTSVReader._form_names_and_unit(series_header, column_header)]:
    [(series_name, unit, standard_name)]. *)
Definition form_names_and_unit (series_header column_header : string)
    : string * string * option string :=
  if SeriesObjects.is_time_column column_header then
    let unit := "s" in
    let name :=
      if String.eqb series_header "pot" then ("Potential " ++ lower column_header)%string
      else if String.eqb series_header Aliases.BIOLOGIC_SERIES_NAME
      then ("Biologic " ++ lower column_header)%string
      else (series_header ++ " " ++ lower column_header)%string in
    (name, unit, None)
  else
    let unit :=
      match zilien_unit column_header with
      | Some u => u
      | None => match biologic_unit column_header with Some u => u | None => "" end
      end in
    let mass := Aliases.to_mass series_header in
    match setpoint_or_value series_header with
    | Some _ => ((series_header ++ " [" ++ unit ++ "]")%string, unit, None)
    | None =>
        match mass with
        | Some m => (("M" ++ m ++ " [" ++ unit ++ "]")%string, unit, Some ("M" ++ m)%string)
        | None => (column_header, unit, None)
        end
    end.

End Names.

(* ------------------------------------------------------------------ *)
(** ** [_read_metadata] *)

Module ReadMetadata.

Section Read.
Context {float : Type}.
Variable py_int : string -> result Z.
Variable py_float : string -> result float.

(** The metadata dict, in insertion order. *)
Definition meta_dict := list (string * Metadata.meta_value (float := float)).

Fixpoint dict_get (d : meta_dict) (k : string) : option (Metadata.meta_value (float := float)) :=
  match d with
  | [] => None
  | (k', v) :: rest => if String.eqb k' k then Some v else dict_get rest k
  end.

(** [d[k] = v]: a key already there keeps its place. *)
Fixpoint dict_set (d : meta_dict) (k : string) (v : Metadata.meta_value (float := float))
    : meta_dict :=
  match d with
  | [] => [(k, v)]
  | (k', v') :: rest => if String.eqb k' k then (k', v) :: rest else (k', v') :: dict_set rest k v
  end.

(** [file_handle.readline()] on the lines still to read (each with its
    newline): [""] at the end of the file. *)
Definition readline (lines : list string) : string * list string :=
  match lines with
  | [] => ("", [])
  | l :: rest => (l, rest)
  end.

(** [for _ in range(n): key, value = parse_metadata_line(file_handle.readline());
    metadata[key] = value] *)
Fixpoint read_items (n : nat) (lines : list string) (metadata : meta_dict)
    : result (meta_dict * list string) :=
  match n with
  | O => Ok (metadata, lines)
  | S n' =>
      let '(line, lines') := readline lines in
      match Metadata.parse_metadata_line py_int py_float line with
      | Err e => Err e
      | Ok (key, value) => read_items n' lines' (dict_set metadata key value)
      end
  end.

Definition fixed_metadata_lines_amount : nat := 4.

(** [range(metadata["num_header_lines"] - fixed_metadata_lines_amount)] as a
    number of passes: a [bool] is an [int] ([True - 4 = -3]), a [float]
    difference is refused by [range], a [str] minus an [int] raises. *)
Definition remaining_passes (v : Metadata.meta_value (float := float)) : result nat :=
  match v with
  | Metadata.MInt z => Ok (Z.to_nat (z - Z.of_nat fixed_metadata_lines_amount))
  | Metadata.MBool _ => Ok 0%nat
  | Metadata.MFloat _ => Err TypeError
  | Metadata.MString _ => Err TypeError
  end.

(** [ZilienTSVReader._read_metadata(file_handle)] on the lines of the file:
    the metadata, the series headers, the column headers, and the lines left
    (where [file_handle.tell()] points). *)
Definition read_metadata (lines : list string)
    : result (meta_dict * list string * list string * list string) :=
  match read_items fixed_metadata_lines_amount lines [] with
  | Err e => Err e
  | Ok (metadata, lines) =>
      match dict_get metadata "num_header_lines" with
      | None => Err KeyError
      | Some v =>
          match remaining_passes v with
          | Err e => Err e
          | Ok k =>
              match read_items k lines metadata with
              | Err e => Err e
              | Ok (metadata, lines) =>
                  let metadata :=
                    match dict_get metadata "file_format_version" with
                    | Some _ => metadata
                    | None => dict_set metadata "file_format_version" (Metadata.MInt 1)
                    end in
                  let '(l1, lines) := readline lines in
                  let series_headers := PyStr.split PyStr.tab (PyStr.strip PyStr.newline l1) in
                  let '(l2, lines) := readline lines in
                  let column_headers := PyStr.split PyStr.tab (PyStr.strip PyStr.newline l2) in
                  Ok (metadata, series_headers, column_headers, lines)
              end
          end
      end
  end.

End Read.
End ReadMetadata.

(* ------------------------------------------------------------------ *)
(** ** [_zilien_dataset_part] *)

Module ZilienPart.

Section Part.
Context {float : Type}.

(** [data_columns_split[:count, :]] on the columns of the block: the slice
    stop must be an integer ([True] and [False] are 1 and 0); a negative one
    counts from the end. *)
Definition slice_rows (count : Metadata.meta_value (float := float))
    (data_columns : list (list (option Z))) : result (list (list (option Z))) :=
  let stop (col : list (option Z)) (z : Z) : nat :=
    if Z.leb 0 z then Z.to_nat z else (length col - Z.to_nat (- z))%nat in
  match count with
  | Metadata.MInt z => Ok (map (fun col => take (stop col z) col) data_columns)
  | Metadata.MBool b => Ok (map (fun col => take (if b then 1 else 0)%nat col) data_columns)
  | Metadata.MFloat _ => Err TypeError
  | Metadata.MString _ => Err TypeError
  end.

(** [ZilienTSVReader._zilien_dataset_part(series_header, column_headers,
    data_columns_split)] with [self._metadata = metadata]. *)
Definition zilien_dataset_part (metadata : ReadMetadata.meta_dict (float := float))
    (series_header : string) (column_headers : list string)
    (data_columns : list (list (option Z)))
    : result (list SeriesObjects.series * Aliases.odict) :=
  match ReadMetadata.dict_get metadata (series_header ++ "_" ++ series_header ++ "_count")%string with
  | None => Err KeyError
  | Some count =>
      let names_and_units := map (Names.form_names_and_unit series_header) column_headers in
      let aliases := Aliases.zilien_aliases_part names_and_units in
      match slice_rows count data_columns with
      | Err e => Err e
      | Ok rows =>
          match SeriesObjects.create_series_objects column_headers names_and_units rows with
          | Err e => Err e
          | Ok column_series => Ok (column_series, aliases)
          end
      end
  end.

End Part.

(** [l[begin:end]] for the pairs of [_get_series_splits] ([None] is the end of
    the list). *)
Definition py_slice {A : Type} (r : option nat * option nat) (l : list A) : list A :=
  let b := default 0%nat r.1 in
  let e := default (length l) r.2 in
  take (e - b) (drop b l).

(** The blocks that [_form_series] walks through: each non-empty series
    header with its slice [self._column_headers[begin:end]]. *)
Definition header_blocks (series_headers column_headers : list string)
    : list (string * list string) :=
  let '(series_split_indices, nonempty_headers) := SeriesSplits.get_series_splits series_headers in
  zip nonempty_headers (map (fun r => py_slice r column_headers) series_split_indices).

(** The alias table that [read] builds from the two header rows of a file
    that is read as [cls], when every block is read without an error: the
    block aliases come from [_form_names_and_unit] of each column. *)
Definition file_aliases (cls : Aliases.meas_cls) (series_headers column_headers : list string)
    : Aliases.odict :=
  Aliases.read_aliases cls
    (map (fun '(series_header, chs) =>
            (series_header, map (Names.form_names_and_unit series_header) chs))
         (header_blocks series_headers column_headers)).

End ZilienPart.

(* ------------------------------------------------------------------ *)
(** ** The time stamp of [ZilienSpectrumReader.read] *)

Module SpectrumStamp.

Definition MASS_SCAN_MARKER : string := "Mass scan started at [s]".

(** The ways [read] can stop: a Python exception, or the name [tstamp] used
    before any assignment ([UnboundLocalError]). *)
Inductive read_exc :=
| PyExc (e : py_exc)
| UnboundLocalError.

Section Read.
Context {float : Type}.
(** [re.search(FLOAT_MATCH, line)] followed by [.group()] ([None] when there is
    no match), and [float(...)]. *)
Variable float_match : string -> option string.
Variable py_float : string -> result float.

(** The [for i in range(10)] loop over the lines it reads: [tstamp] is
    assigned at each line holding the marker. *)
Fixpoint scan_tstamp (lines : list string) (tstamp : option float) : result (option float) :=
  match lines with
  | [] => Ok tstamp
  | line :: rest =>
      if PyText.contains MASS_SCAN_MARKER line then
        match float_match line with
        | None => Err AttributeError
        | Some g =>
            match py_float g with
            | Err e => Err e
            | Ok f => scan_tstamp rest (Some f)
            end
        end
      else scan_tstamp rest tstamp
  end.

(** [ZilienSpectrumReader.read] on a file whose data frame has columns
    [df_columns] and whose lines are [lines]: the x column name and the time
    stamp that go into the spectrum. [readline] past the end gives [""],
    which holds no marker, so the first ten lines are what it reads. *)
Definition spectrum_read (df_columns lines : list string) : read_exc + (string * float) :=
  match SpectrumReader.spectrum_columns df_columns with
  | Err e => inl (PyExc e)
  | Ok (x_name, _) =>
      match scan_tstamp (take 10 lines) None with
      | Err e => inl (PyExc e)
      | Ok None => inl UnboundLocalError
      | Ok (Some tstamp) => inr (x_name, tstamp)
      end
  end.

End Read.
End SpectrumStamp.

(* ------------------------------------------------------------------ *)
(** ** Names of [series_list_from_tmp] and the time stamp string of [read] *)

Module TmpNames.
Import PyText.

(** The longest run at the front of [cs] whose characters satisfy [p], and
    the rest. *)
Fixpoint span {A : Type} (p : A -> bool) (cs : list A) : list A * list A :=
  match cs with
  | [] => ([], [])
  | c :: rest => if p c then let '(r, t) := span p rest in (c :: r, t) else ([], cs)
  end.

Definition dot_data : list Ascii.ascii := String.list_ascii_of_string ".data".

(** Group 1 of [re.search(r"\.([^\.]+)\.data", file_name)]: the leftmost
    [.] that is followed by a run of non-dots and [.data]; the greedy run
    cannot stop before a [.], so only the whole run is tried. *)
Fixpoint column_search (cs : list Ascii.ascii) : option (list Ascii.ascii) :=
  match cs with
  | [] => None
  | c :: rest =>
      let here :=
        if Ascii.eqb c dot then
          let '(r, t) := span (fun x => negb (Ascii.eqb x dot)) rest in
          match r with
          | [] => None
          | _ => if bool_decide (dot_data `prefix_of` t) then Some r else None
          end
        else None in
      match here with
      | Some g => Some g
      | None => column_search rest
      end
  end.

(** [re.search("M[0-9]+", v_name).group()]: the leftmost [M] followed by
    digits, with all the digits that follow it. *)
Fixpoint mass_search (cs : list Ascii.ascii) : option (list Ascii.ascii) :=
  match cs with
  | [] => None
  | c :: rest =>
      let here :=
        if Ascii.eqb c Aliases.char_M then
          match (span Aliases.is_digit rest).1 with
          | [] => None
          | ds => Some (c :: ds)
          end
        else None in
      match here with
      | Some m => Some m
      | None => mass_search rest
      end
  end.

(** The names [series_list_from_tmp] finds in [file_name]:
    [(t_name, v_name, unit)], or [None] when there is no column name in the
    file name. *)
Definition names_of_file_name (file_name : string) : option (string * string * option string) :=
  match column_search (String.list_ascii_of_string file_name) with
  | None => None
  | Some col =>
      let '(v_name, unit) :=
        match mass_search col with
        | Some m => (String.string_of_list_ascii m, Some "A")
        | None => (String.string_of_list_ascii col, None)
        end in
      Some ((v_name ++ "-x")%string, v_name, unit)
  end.

(** The names [series_list_from_tmp(path_to_file)] gives its two series,
    [(t_name, v_name, unit)], for a file named [file_name]; [Ok None] when it
    returns [[]] (no column name in the file name). Before the names it
    computes [timestamp_string_to_tstamp(file_name[:19],
    form=ZILIEN_TIMESTAMP_FORM)], whose exception propagates; that function
    (of [readers/reading_tools.py]) is not part of this source and is the
    parameter [timestamp_string_to_tstamp] here, with the form applied. *)
Definition tmp_series_names {T : Type} (timestamp_string_to_tstamp : string -> result T)
    (file_name : string) : result (option (string * string * option string)) :=
  match timestamp_string_to_tstamp (String.substring 0 19 file_name) with
  | Err e => Err e
  | Ok _ => Ok (names_of_file_name file_name)
  end.

(** [" ".join(file_stem.split(" ")[:2])] of [ZilienTSVReader.read]. *)
Definition timestamp_string (file_stem : string) : string :=
  join_space (take 2 (PyStr.split space file_stem)).

End TmpNames.

(* ------------------------------------------------------------------ *)
(** ** [CyclicVoltammagram.__getitem__] and [redefine_cycle()] *)

Module CVSelect.

(** The Python values a key list can hold. *)
Inductive pyval :=
| PInt (z : Z)
| PBool (b : bool)
| PFloat
| PStr (s : string)
| PNone.

(** The keys [__getitem__] tells apart; a slice's bounds are [None] or
    integers. *)
Inductive key :=
| KSlice (start stop step : option Z)
| KInt (z : Z)
| KBool (b : bool)
| KList (l : list pyval)
| KOther (s : string).

(** What [__getitem__] does with the key: [self.select(...)] with an [int]
    (a [bool] is one), or with a list of [int]s, or
    [super().__getitem__(key)]. *)
Inductive outcome :=
| SelectInt (z : Z)
| SelectBool (b : bool)
| SelectList (l : list Z)
| Super (k : key).

(** [len(range(start, stop, step))] for [step <> 0]. *)
Definition range_length (start stop step : Z) : nat :=
  if Z.ltb 0 step then
    if Z.leb stop start then 0%nat else Z.to_nat ((stop - start + step - 1) / step)
  else
    if Z.leb start stop then 0%nat else Z.to_nat ((start - stop - step - 1) / (- step)).

(** [list(range(start, stop, step))]: [None] bounds raise [TypeError], a zero
    step [ValueError]. *)
Definition py_range (start stop step : option Z) : result (list Z) :=
  match start, stop, step with
  | Some a, Some b, Some s =>
      if Z.eqb s 0 then Err ValueError
      else Ok (map (fun i => a + Z.of_nat i * s) (seq 0 (range_length a b s)))
  | _, _, _ => Err TypeError
  end.

Definition int_of (v : pyval) : option Z :=
  match v with PInt z => Some z | _ => None end.

(** [all([type(i) is int for i in key])], giving the integers. *)
Fixpoint all_ints (l : list pyval) : option (list Z) :=
  match l with
  | [] => Some []
  | v :: rest =>
      match int_of v, all_ints rest with
      | Some z, Some zs => Some (z :: zs)
      | _, _ => None
      end
  end.

(** The [isinstance(key, (int, list))] branch. *)
Definition select_int_or_list (k : key) : result outcome :=
  match k with
  | KInt z => Ok (SelectInt z)
  | KBool b => Ok (SelectBool b)
  | KList l =>
      match all_ints l with
      | Some zs => Ok (SelectList zs)
      | None => Err AttributeError
      end
  | _ => Ok (Super k)
  end.

(** [CyclicVoltammagram.__getitem__(key)] *)
Definition getitem (k : key) : result outcome :=
  match k with
  | KSlice start stop step =>
      let step := match step with None => Some 1 | Some s => Some s end in
      match py_range start stop step with
      | Err e => Err e
      | Ok l => select_int_or_list (KList (map PInt l))
      end
  | _ => select_int_or_list k
  end.

(** The [start_potential is None] branch of [redefine_cycle]: the data of the
    new [cycle] series, [old_cycle_series.data - min(old_cycle_series.data)]
    ([min] of an empty sequence raises [ValueError]). *)
Definition shift_cycle (old : list Z) : result (list Z) :=
  match old with
  | [] => Err ValueError
  | d :: rest => let m := fold_left Z.min rest d in Ok (map (fun x => x - m) old)
  end.

End CVSelect.

(* ------------------------------------------------------------------ *)
(** ** More views of a [Spectrum] *)

Module SpectrumViews.
Import Spectra.

(** [spec.xseries = spec.field.axes_series[0]] and its [name]. *)
Definition xseries (h : heap) (sp : spectrum) : result obj :=
  match axes_series h sp !! 0%nat with Some o => Ok o | None => Err IndexError end.

Definition obj_name (o : obj) : string :=
  match o with OSeries s => series_name s | OField f => field_name f end.

Definition x_name (h : heap) (sp : spectrum) : result string :=
  match xseries h sp with Ok o => Ok (obj_name o) | Err e => Err e end.

(** [spec.tseries = spec.field.axes_series[1]] *)
Definition tseries (h : heap) (sp : spectrum) : result obj :=
  match axes_series h sp !! 1%nat with Some o => Ok o | None => Err IndexError end.

(** [spec.y_name = spec.field.name] *)
Definition y_name (sp : spectrum) : string := field_name (spectrum_field sp).

(** [spec.yseries = DataSeries(name=field.name, data=spec.y,
    unit_name=field.unit_name)] *)
Definition yseries (h : heap) (sp : spectrum) : result series :=
  match y h sp with
  | Ok d => Ok (DataSeries (field_name (spectrum_field sp)) (field_unit_name (spectrum_field sp)) d)
  | Err e => Err e
  end.

End SpectrumViews.


(* ------------------------------------------------------------------ *)
(** ** Shapes used in the statements about the code above *)

Module Shapes.

(** The alias table with one key [k] for the names [v], none when [v] is
    empty. *)
Definition single (k : string) (v : list string) : Aliases.odict :=
  match v with [] => [] | _ => [(k, v)] end.

(** One pass of the loop of [_zilien_aliases_part]. *)
Definition alias_step (aliases : Aliases.odict) (nu : string * string * option string)
    : Aliases.odict :=
  let '(series_name, _, standard_name) := nu in
  match standard_name with
  | Some sn => if String.eqb sn "" then aliases else Aliases.od_extend aliases sn [series_name]
  | None => aliases
  end.

(** [MASS_SCAN_MARKER in line] *)
Definition marker_line (l : string) : bool := PyText.contains SpectrumStamp.MASS_SCAN_MARKER l.

Definition series_name (s : SeriesObjects.series) : string :=
  match s with
  | SeriesObjects.TimeSeries n _ _ => n
  | SeriesObjects.ValueSeries n _ _ _ => n
  end.

Definition series_data (s : SeriesObjects.series) : list (option Z) :=
  match s with
  | SeriesObjects.TimeSeries _ _ d => d
  | SeriesObjects.ValueSeries _ _ d _ => d
  end.

(** Every value series of [l] is linked to the last time series before it
    ([last] before the start of [l]). *)
Fixpoint linked (last : option SeriesObjects.series) (l : list SeriesObjects.series) : Prop :=
  match l with
  | [] => True
  | (SeriesObjects.TimeSeries _ _ _ as t) :: rest => linked (Some t) rest
  | SeriesObjects.ValueSeries _ _ _ ts :: rest => last = Some ts /\ linked last rest
  end.

(** The numbers of the columns, from [n] on, that are neither metadata
    columns nor all NaN. *)
Fixpoint kept_columns (data_columns : list (list (option Z))) (n : nat)
    (column_headers : list string) : list nat :=
  match column_headers with
  | [] => []
  | h :: rest =>
      if SeriesObjects.is_meta_column h then kept_columns data_columns (S n) rest
      else match data_columns !! n with
           | Some d => if SeriesObjects.all_nan d then kept_columns data_columns (S n) rest
                       else n :: kept_columns data_columns (S n) rest
           | None => n :: kept_columns data_columns (S n) rest
           end
  end.

(** Consecutive cycle numbers are equal or go up by one, and each step up
    is at a sample ahead of the start potential. *)
Definition cycle_steps (v : list Z) (ahead : Z -> Prop) (cycle : list nat) : Prop :=
  forall k x y, cycle !! k = Some x -> cycle !! S k = Some y ->
    y = x \/ (y = S x /\ exists z, v !! S k = Some z /\ ahead z).

(** A line of a tab-separated file, with its newline. *)
Definition tsv_line (cells : list string) : string :=
  (String.concat (String PyStr.tab "") cells ++ String PyStr.newline "")%string.

End Shapes.

(* ------------------------------------------------------------------ *)
(** ** Example inputs *)

Module Examples.

(** Python's [int(s)] on a string of decimal digits. *)
Fixpoint decimal (acc : Z) (cs : list Ascii.ascii) : result Z :=
  match cs with
  | [] => Ok acc
  | c :: rest =>
      if Aliases.is_digit c then decimal (acc * 10 + (Z.of_nat (Ascii.nat_of_ascii c) - 48)) rest
      else Err ValueError
  end.

Definition py_int (s : string) : result Z :=
  match String.list_ascii_of_string s with
  | [] => Err ValueError
  | cs => decimal 0 cs
  end.

(** A stand-in for [timestamp_string_to_tstamp(_, form=ZILIEN_TIMESTAMP_FORM)]
    that only checks the shape ["%Y-%m-%d %H_%M_%S"] of its argument (the
    ["d"] of [zilien_form] standing for a digit) and gives [0]; like
    [strptime], it raises [ValueError] on any other string. *)
Definition zilien_form : string := "dddd-dd-dd dd_dd_dd".

Definition zilien_tstamp (s : string) : result Z :=
  if (Nat.eqb (String.length s) 19 &&
      forallb (fun '(c, f) => if Ascii.eqb f (Ascii.ascii_of_nat 100) then Aliases.is_digit c else Ascii.eqb c f)
        (combine (String.list_ascii_of_string s) (String.list_ascii_of_string zilien_form)))%bool
  then Ok 0 else Err ValueError.

(** A metadata line [name, comment, attach_to_series, type, value]. *)
Definition meta_line (name type_as_str value : string) : string :=
  Shapes.tsv_line [name; ""; ""; type_as_str; value].

(** The head of a Zilien file with five metadata lines, one block
    ["C0M44"], and one row of data. *)
Definition zilien_lines : list string :=
  [meta_line "file_format_version" "int" "2";
   meta_line "num_header_lines" "int" "5";
   meta_line "num_data_header_lines" "int" "2";
   meta_line "data_start_line" "int" "8";
   meta_line "comment" "string" "test";
   Shapes.tsv_line [""; "C0M44"];
   Shapes.tsv_line ["Time [s]"; "Ion current [A]"];
   Shapes.tsv_line ["0"; "1"]].

(** The float of a spectrum's time stamp line, taken here as its last cell. *)
Definition last_cell (line : string) : option string :=
  last (PyStr.split PyStr.tab (PyStr.strip PyStr.newline line)).

(** The head of a Zilien spectrum file. *)
Definition spectrum_lines : list string :=
  [Shapes.tsv_line ["Mass scan started at [s]"; "1618912578"];
   Shapes.tsv_line ["Mass scan stopped at [s]"; "1618912590"]].

End Examples.
(* ------------------------------------------------------------------ *)
(** ** Predicates used in the statements below *)

(** Groups are non-empty, constant with their key, and neighbouring groups
    have different keys. *)
Definition group_ok (p : Z * list Z) : Prop := p.2 <> [] /\ Forall (eq p.1) p.2.

Definition keys_alternate (gs : list (Z * list Z)) : Prop :=
  forall j p q, gs !! j = Some p -> gs !! S j = Some q -> p.1 <> q.1.

Definition nondecreasing (vec : list nat) : Prop :=
  forall i j x y, (i <= j)%nat -> vec !! i = Some x -> vec !! j = Some y -> (x <= y)%nat.

(** What stays true of [cycle_vec] across the loop. *)
Definition cycle_inv (N c : nat) (vec : list nat) : Prop :=
  length vec = N /\ nondecreasing vec /\ Forall (fun x => x <= c)%nat vec /\
  (forall x, vec !! 0%nat = Some x -> x = 0%nat).

(** All the names [items] gives to [k], in order. *)
Definition gathered (items : Aliases.odict) (k : string) : list string :=
  concat (map snd (List.filter (fun p => String.eqb p.1 k) items)).

(* ================================================================== *)
(** * Proofs *)

(* ------------------------------------------------------------------ *)
(** ** Runs of the EC-lab block *)

Section BiologicRuns.
Import Biologic.

Lemma keys_alternate_cons p gs :
  keys_alternate (p :: gs) <-> (forall q, head gs = Some q -> p.1 <> q.1) /\ keys_alternate gs.
Proof.
  split.
  - intros H. split.
    + intros q Hq. destruct gs as [|q' gs]; simpl in Hq; [discriminate|].
      injection Hq as <-. by apply (H 0%nat).
    + intros j a b Ha Hb. by apply (H (S j)).
  - intros [Hh Ht] [|j] a b Ha Hb; simpl in *.
    + injection Ha as <-. destruct gs; simpl in *; [discriminate|].
      injection Hb as <-. by apply Hh.
    + by apply (Ht j).
Qed.

Lemma groupby_go_spec k grp xs :
  grp <> [] -> Forall (eq k) grp ->
  concat (map snd (groupby_go k grp xs)) = grp ++ xs /\
  Forall group_ok (groupby_go k grp xs) /\
  keys_alternate (groupby_go k grp xs) /\
  option_map fst (head (groupby_go k grp xs)) = Some k.
Proof.
  revert k grp. induction xs as [|x xs IH]; intros k grp Hne Hk; simpl.
  - rewrite app_nil_r. repeat split; try by constructor.
    intros [|j] p q _ Hq; simpl in Hq; discriminate.
  - destruct (Z.eqb_spec x k) as [->|Hxk].
    + destruct (IH k (grp ++ [k])) as (H1 & H2 & H3 & H4).
      * intros Hnil. by destruct grp.
      * apply Forall_app. split; [done|]. by repeat constructor.
      * rewrite H1, <- app_assoc. done.
    + destruct (IH x [x]) as (H1 & H2 & H3 & H4); [done|by repeat constructor|].
      simpl. rewrite H1. repeat split.
      * constructor; [by split|done].
      * apply keys_alternate_cons. split; [|done].
        intros q Hq. rewrite Hq in H4. simpl in *. injection H4 as ->. congruence.
Qed.

Lemma groupby_spec xs :
  concat (map snd (groupby xs)) = xs /\
  Forall group_ok (groupby xs) /\ keys_alternate (groupby xs).
Proof.
  destruct xs as [|x xs]; simpl.
  - repeat split; [constructor|]. intros j p q Hp. by rewrite lookup_nil in Hp.
  - destruct (groupby_go_spec x [x] xs) as (H1 & H2 & H3 & _); [done|by repeat constructor|].
    done.
Qed.

Lemma lookup_in_group (pre g rest : list Z) k i :
  Forall (eq k) g -> (length pre <= i < length pre + length g)%nat ->
  (pre ++ g ++ rest) !! i = Some k.
Proof.
  intros Hk Hi. rewrite lookup_app_r by lia. rewrite lookup_app_l by lia.
  destruct (g !! (i - length pre)%nat) as [y|] eqn:Hy.
  - rewrite Forall_lookup in Hk. by rewrite (Hk _ _ Hy).
  - apply lookup_ge_None in Hy. lia.
Qed.

Lemma splits_from_spec (gs : list (Z * list Z)) (pre : list Z) :
  Forall group_ok gs -> keys_alternate gs ->
  let keys := pre ++ concat (map snd gs) in
  let s := splits_from (length pre) gs in
  concat (map run_rows s) = seq (length pre) (length (concat (map snd gs))) /\
  Forall (fun r => (r.1 < r.2)%nat /\
            forall i, (r.1 <= i < r.2)%nat -> keys !! i = keys !! r.1) s /\
  (forall j r r', s !! j = Some r -> s !! S j = Some r' ->
     r.2 = r'.1 /\ keys !! r.1 <> keys !! r'.1).
Proof.
  revert pre. induction gs as [|[k g] gs IH]; intros pre Hok Halt; simpl.
  - split; [done|split; [constructor|]]. intros j r r' Hr. by rewrite lookup_nil in Hr.
  - apply Forall_cons in Hok as [[Hne Hk] Hok]. simpl in Hne, Hk.
    apply keys_alternate_cons in Halt as [Hhd Halt].
    destruct (IH (pre ++ g)) as (H1 & H2 & H3); [done|done|].
    rewrite length_app in H1, H2, H3. rewrite <- app_assoc in H2, H3.
    assert (Hg : (0 < length g)%nat) by (destruct g; [done|simpl; lia]).
    assert (Hhead : (pre ++ g ++ concat (map snd gs)) !! length pre = Some k).
    { apply lookup_in_group; [done|lia]. }
    split; [|split].
    + unfold run_rows at 1. simpl. rewrite H1, length_app.
      replace (length pre + length g - length pre)%nat with (length g) by lia.
      by rewrite <- seq_app.
    + constructor; [|done]. simpl. split; [lia|].
      intros i Hi. rewrite Hhead. by apply lookup_in_group.
    + intros [|j] r r' Hr Hr'; simpl in Hr, Hr'.
      * injection Hr as <-. simpl. rewrite Hhead.
        destruct gs as [|[k' g'] gs]; simpl in Hr'; [discriminate|].
        injection Hr' as <-. simpl. split; [done|].
        apply Forall_cons in Hok as [[Hne' Hk'] _]. simpl in Hne', Hk'.
        assert (Hg' : (0 < length g')%nat) by (destruct g'; [done|simpl; lia]).
        rewrite app_assoc, (lookup_in_group (pre ++ g) g' _ k')
          by (done || (rewrite length_app; lia)).
        intros Heq. injection Heq as Heq. by apply (Hhd (k', g')).
      * by apply (H3 j).
Qed.

End BiologicRuns.

(** C1: [_get_biologic_splits] cuts the rows [0, n) of the key vector into
    consecutive non-empty runs, in row order, on each of which the key is
    constant, and neighbouring runs have different keys (so every run is a
    maximal block of equal keys, and a key that comes back after another key
    starts a new run). On [5001, 5001, 5001, 7002, 7002, 5001] the runs are
    [(0,3), (3,5), (5,6)]. *)
Theorem biologic_splits_maximal_runs (keys : list Z) :
  let s := Biologic.get_biologic_splits keys in
  concat (map Biologic.run_rows s) = seq 0 (length keys) /\
  Forall (fun r => (r.1 < r.2)%nat /\
            forall i, (r.1 <= i < r.2)%nat -> keys !! i = keys !! r.1) s /\
  (forall j r r', s !! j = Some r -> s !! S j = Some r' ->
     r.2 = r'.1 /\ keys !! r.1 <> keys !! r'.1) /\
  Biologic.get_biologic_splits [5001; 5001; 5001; 7002; 7002; 5001]
    = [(0, 3); (3, 5); (5, 6)]%nat.
Proof.
  destruct (groupby_spec keys) as (Hcat & Hok & Halt).
  destruct (splits_from_spec (Biologic.groupby keys) [] Hok Halt) as (H1 & H2 & H3).
  simpl in H1, H2, H3. rewrite Hcat in H1, H2, H3.
  unfold Biologic.get_biologic_splits. repeat split; auto.
  - by apply H3 with j.
  - by apply H3 with j.
Qed.

(* ------------------------------------------------------------------ *)
(** ** Column blocks of the series header row *)

Section SeriesSplitsProofs.
Import SeriesSplits.

Lemma zip_longest_next_cover (L x i : nat) (hs : list string) :
  (x < i)%nat -> (i + length hs <= L)%nat ->
  let idx := (collect_headers i hs).1 in
  concat (map (slice_columns L) (zip_longest (x :: idx) idx)) = seq x (L - x).
Proof.
  revert x i. induction hs as [|h hs IH]; intros x i Hxi HL; simpl.
  - unfold slice_columns. simpl. by rewrite app_nil_r.
  - destruct (collect_headers (S i) hs) as [idx names] eqn:Hc.
    pose proof (IH x (S i) ltac:(lia) ltac:(simpl in HL; lia)) as IHx.
    pose proof (IH i (S i) ltac:(lia) ltac:(simpl in HL; lia)) as IHi.
    rewrite Hc in IHx, IHi. simpl in IHx, IHi.
    destruct (String.eqb h ""); simpl; [done|].
    rewrite IHi. unfold slice_columns at 1. simpl.
    replace (L - x)%nat with ((i - x) + (L - i))%nat by (simpl in HL; lia).
    rewrite seq_app. f_equal. f_equal. lia.
Qed.

Lemma collect_headers_cover (i : nat) (hs : list string) :
  let idx := (collect_headers i hs).1 in
  concat (map (slice_columns (i + length hs)) (zip_longest idx (drop 1 idx)))
    = seq (i + leading_empty hs) (length hs - leading_empty hs).
Proof.
  revert i. induction hs as [|h hs IH]; intros i; [done|].
  pose proof (zip_longest_next_cover (i + S (length hs)) i (S i) hs
                ltac:(lia) ltac:(lia)) as Hnext.
  specialize (IH (S i)).
  cbn zeta in *. unfold collect_headers; fold collect_headers.
  destruct (collect_headers (S i) hs) as [idx names] eqn:Hc.
  cbn [fst] in *. unfold leading_empty; fold leading_empty.
  cbn [length].
  destruct (String.eqb h "").
  - cbn [fst]. replace (i + S (length hs))%nat with (S i + length hs)%nat by lia.
    rewrite IH. f_equal; lia.
  - cbn [fst skipn]. rewrite drop_0, Hnext. f_equal; lia.
Qed.

Lemma collect_headers_elem (i : nat) (hs : list string) (x : nat) :
  x ∈ (collect_headers i hs).1 <->
  (i <= x)%nat /\ exists h, hs !! (x - i)%nat = Some h /\ h <> "".
Proof.
  revert i. induction hs as [|h hs IH]; intros i; simpl.
  - split; [intros H; by apply elem_of_nil in H|].
    intros [_ [h [Hh _]]]. by rewrite lookup_nil in Hh.
  - specialize (IH (S i)).
    destruct (collect_headers (S i) hs) as [idx names] eqn:Hc. simpl in *.
    assert (Hstep : (i <= x)%nat /\ (exists h', (h :: hs) !! (x - i)%nat = Some h' /\ h' <> "")
              <-> x = i /\ h <> "" \/ (S i <= x)%nat /\
                  exists h', hs !! (x - S i)%nat = Some h' /\ h' <> "").
    { split.
      - intros [Hle [h' [Hl Hne]]].
        destruct (decide (x = i)) as [->|Hxi].
        + left. rewrite Nat.sub_diag in Hl. simpl in Hl. injection Hl as ->. done.
        + right. split; [lia|]. exists h'. split; [|done].
          replace (x - i)%nat with (S (x - S i)) in Hl by lia. done.
      - intros [[-> Hne]|[Hle [h' [Hl Hne]]]].
        + split; [lia|]. exists h. rewrite Nat.sub_diag. done.
        + split; [lia|]. exists h'. replace (x - i)%nat with (S (x - S i)) by lia. done. }
    rewrite Hstep.
    destruct (String.eqb_spec h "") as [->|Hne]; simpl.
    + rewrite IH. split; [intros H; by right|].
      intros [[_ Habs]|H]; [done|done].
    + rewrite elem_of_cons, IH. split.
      * intros [->|H]; [by left|by right].
      * intros [[-> _]|H]; [by left|by right].
Qed.

Lemma collect_headers_NoDup (i : nat) (hs : list string) :
  NoDup (collect_headers i hs).1.
Proof.
  revert i. induction hs as [|h hs IH]; intros i; simpl.
  - constructor.
  - specialize (IH (S i)). pose proof (collect_headers_elem (S i) hs i) as Hel.
    destruct (collect_headers (S i) hs) as [idx names] eqn:Hc. simpl in *.
    destruct (String.eqb h ""); simpl; [done|].
    constructor; [|done]. rewrite Hel. lia.
Qed.

Lemma collect_headers_names (i : nat) (hs : list string) :
  (collect_headers i hs).2 = filter (fun h => h <> "") hs.
Proof.
  revert i. induction hs as [|h hs IH]; intros i; simpl; [done|].
  specialize (IH (S i)).
  destruct (collect_headers (S i) hs) as [idx names] eqn:Hc. simpl in *.
  rewrite filter_cons.
  destruct (String.eqb_spec h "") as [->|Hne]; simpl.
  - done.
  - destruct (decide (h ≠ "")); [by f_equal|done].
Qed.

Lemma zip_longest_fst {A B : Type} (xs : list A) (ys : list B) :
  (length ys <= length xs)%nat ->
  map fst (zip_longest xs ys) = map Some xs.
Proof.
  revert ys. induction xs as [|x xs IH]; intros [|y ys] Hl; simpl in *; try lia.
  - done.
  - rewrite map_map. done.
  - f_equal. apply IH. lia.
Qed.

End SeriesSplitsProofs.

Section SeriesSplitsLast.
Import SeriesSplits.

Lemma zip_longest_next_last (x : nat) (xs : list nat) r :
  last (zip_longest (x :: xs) xs) = Some r -> r.2 = None.
Proof.
  revert x. induction xs as [|y xs IH]; intros x Hr; simpl in Hr.
  - by injection Hr as <-.
  - apply (IH y). destruct xs; simpl in *; done.
Qed.

End SeriesSplitsLast.

Section SeriesSplitsOrder.
Import SeriesSplits.

(** The [k]-th pair of [zip_longest(idx, idx[1:])] begins at [idx[k]] and
    ends at [idx[k+1]], [None] past the end. *)
Lemma zip_longest_next_lookup (idx : list nat) (k : nat) p :
  zip_longest idx (drop 1 idx) !! k = Some p ->
  exists x, idx !! k = Some x /\ p = (Some x, idx !! S k).
Proof.
  revert k. induction idx as [|x r IH]; intros k Hk; [done|].
  destruct r as [|y r'].
  - destruct k; [|done]. injection Hk as <-. by exists x.
  - destruct k as [|k].
    + injection Hk as <-. by exists x.
    + by apply IH.
Qed.

Lemma collect_headers_first (index : nat) (hs : list string) (j : nat) :
  (collect_headers index hs).1 !! 0%nat = Some j ->
  forall m, (index <= m < j)%nat -> hs !! (m - index)%nat = Some ""%string.
Proof.
  revert index. induction hs as [|h hs IH]; intros index Hj m Hm; [done|].
  simpl in Hj. destruct (collect_headers (S index) hs) as [idx names] eqn:Hc.
  destruct (String.eqb_spec h ""%string) as [->|Hne]; simpl in Hj.
  - destruct (decide (m = index)) as [->|Hmi].
    + by rewrite Nat.sub_diag.
    + replace (m - index)%nat with (S (m - S index)) by lia. simpl.
      apply (IH (S index)); [by rewrite Hc|lia].
  - injection Hj as <-. lia.
Qed.

(** Two neighbouring indices of [collect_headers] go up, and only empty
    headers lie between them. *)
Lemma collect_headers_gaps (index : nat) (hs : list string) (k i j : nat) :
  (collect_headers index hs).1 !! k = Some i ->
  (collect_headers index hs).1 !! S k = Some j ->
  (i < j)%nat /\ forall m, (i < m < j)%nat -> hs !! (m - index)%nat = Some ""%string.
Proof.
  revert index k. induction hs as [|h hs IH]; intros index k Hi Hj; [done|].
  pose proof (fun x => proj1 (collect_headers_elem (S index) hs x)) as Hge.
  simpl in Hi, Hj. destruct (collect_headers (S index) hs) as [idx names] eqn:Hc.
  simpl in Hge.
  assert (Hshift : forall m, (S index <= m)%nat -> hs !! (m - S index)%nat = Some ""%string ->
                   (h :: hs) !! (m - index)%nat = Some ""%string).
  { intros m Hm Hl. by replace (m - index)%nat with (S (m - S index)) by lia. }
  destruct (String.eqb_spec h ""%string) as [->|Hne]; simpl in Hi, Hj.
  - destruct (IH (S index) k) as [Hij Hgap]; [by rewrite Hc|by rewrite Hc|].
    split; [done|]. intros m Hm. apply Hshift; [|apply Hgap; lia].
    assert (Hix : (S index <= i)%nat) by (apply (Hge i); eapply list_elem_of_lookup_2; exact Hi).
    lia.
  - destruct k as [|k].
    + injection Hi as <-.
      assert (Hjx : (S index <= j)%nat) by (apply (Hge j); eapply list_elem_of_lookup_2; exact Hj).
      split; [lia|]. intros m Hm. apply Hshift; [lia|].
      apply (collect_headers_first (S index) hs j); [by rewrite Hc|lia].
    + destruct (IH (S index) k) as [Hij Hgap]; [by rewrite Hc|by rewrite Hc|].
      split; [done|]. intros m Hm. apply Hshift; [|apply Hgap; lia].
      assert (Hix : (S index <= i)%nat) by (apply (Hge i); eapply list_elem_of_lookup_2; exact Hi).
      lia.
Qed.

End SeriesSplitsOrder.

(** C2 (as the code has it): for a header row of length [L], the pairs of
    [_get_series_splits] begin at the non-empty header indices, each exactly
    once and never at [None], in row order; every end is the next such index
    (the begin of the next pair, with only empty cells in between), except
    the last end, which is [None] (the slice runs to [L]). Read as column slices they
    cover [lead, L) with no gap and no overlap, [lead] being the number of empty
    cells at the start of the row; so they cover [0, L) exactly when the first
    cell is non-empty. An all-empty row gives no pairs, and the names returned
    are the non-empty headers in order. *)
Theorem series_splits_blocks (hs : list string) :
  let s := (SeriesSplits.get_series_splits hs).1 in
  let L := length hs in
  let lead := SeriesSplits.leading_empty hs in
  concat (map (SeriesSplits.slice_columns L) s) = seq lead (L - lead) /\
  (forall h rest, hs = h :: rest -> h <> "" ->
     concat (map (SeriesSplits.slice_columns L) s) = seq 0 L) /\
  NoDup (map fst s) /\
  (forall i, Some i ∈ map fst s <-> exists h, hs !! i = Some h /\ h <> "") /\
  List.Forall (fun r => is_Some r.1) s /\
  (forall r, last s = Some r -> r.2 = None) /\
  (forall k b e b' e', s !! k = Some (b, e) -> s !! S k = Some (b', e') ->
     e = b' /\ exists i j, b = Some i /\ b' = Some j /\ (i < j)%nat /\
       forall m, (i < m < j)%nat -> hs !! m = Some ""%string) /\
  (s = [] <-> Forall (fun h => h = "") hs) /\
  (SeriesSplits.get_series_splits hs).2 = filter (fun h => h <> "") hs.
Proof.
  pose proof (collect_headers_cover 0 hs) as Hcov.
  pose proof (collect_headers_elem 0 hs) as Hel.
  pose proof (collect_headers_NoDup 0 hs) as Hnd.
  pose proof (collect_headers_names 0 hs) as Hnm.
  unfold SeriesSplits.get_series_splits.
  destruct (SeriesSplits.collect_headers 0 hs) as [idx names] eqn:Hc.
  cbn [fst snd] in *. simpl in Hcov.
  assert (Hfst : map fst (SeriesSplits.zip_longest idx (drop 1 idx)) = map Some idx).
  { apply zip_longest_fst. rewrite length_drop. lia. }
  assert (Hin : forall i, i ∈ idx <-> exists h, hs !! i = Some h /\ h <> "").
  { intros i. rewrite Hel, Nat.sub_0_r. split; [tauto|]. intros H. split; [lia|done]. }
  split; [done|]. split.
  { intros h rest -> Hne. rewrite Hcov. simpl.
    destruct (String.eqb_spec h ""); [done|]. simpl. f_equal. }
  split.
  { rewrite Hfst. by apply (NoDup_fmap_2 Some). }
  split.
  { intros i. rewrite Hfst, <- Hin. change (map Some idx) with (Some <$> idx).
    rewrite list_elem_of_fmap. split; [intros [x [Hx Hx']]; congruence|].
    intros Hi. by exists i. }
  split.
  { apply List.Forall_forall. intros r Hr.
    apply (in_map fst) in Hr. rewrite Hfst in Hr.
    apply in_map_iff in Hr as [x [Hx _]]. rewrite <- Hx. by exists x. }
  split.
  { intros r. destruct idx as [|x xs]; simpl; [done|].
    rewrite drop_0. apply zip_longest_next_last. }
  split.
  { intros k b e b' e' Hk Hk'.
    apply zip_longest_next_lookup in Hk as [x [Hx Hp]].
    apply zip_longest_next_lookup in Hk' as [y [Hy Hp']].
    injection Hp as -> ->. injection Hp' as -> ->.
    split; [done|]. exists x, y. split; [done|]. split; [done|].
    destruct (collect_headers_gaps 0 hs k x y) as [Hxy Hgap]; [by rewrite Hc|by rewrite Hc|].
    split; [done|]. intros m Hm. rewrite <- (Nat.sub_0_r m). by apply Hgap. }
  split; [|done].
  assert (Hnil : SeriesSplits.zip_longest idx (drop 1 idx) = [] <-> idx = []).
  { destruct idx as [|x xs]; simpl; [done|].
    split; [|done]. destruct xs; simpl; discriminate. }
  rewrite Hnil, Forall_lookup. split.
  - intros -> i h Hh. destruct (decide (h = "")) as [|Hne]; [done|].
    assert (Hi : i ∈ ([] : list nat)) by (apply Hin; eauto).
    by apply elem_of_nil in Hi.
  - intros Hall. destruct idx as [|x xs]; [done|].
    assert (Hx : x ∈ x :: xs) by by left.
    apply Hin in Hx as [h [Hh Hne]]. by apply Hall in Hh.
Qed.

(** C2 (as the spec states it, refuted): for the header row [""; "a"] the only
    pair is [(1, None)], so column 0 lies in no range and the ranges do not
    cover [0, 2). *)
Lemma series_splits_leading_gap :
  (SeriesSplits.get_series_splits [""; "a"]).1 = [(Some 1%nat, None)] /\
  concat (map (SeriesSplits.slice_columns 2)
                (SeriesSplits.get_series_splits [""; "a"]).1) <> seq 0 2.
Proof. split; [reflexivity | vm_compute; discriminate]. Qed.

(* ------------------------------------------------------------------ *)
(** ** Errors of the reader *)

Lemma create_go_value_before_time names cols (n : nat) pre h post d nu :
  (forall j h', pre !! j = Some h' ->
     SeriesObjects.is_meta_column h' = true \/
     exists d', cols !! (n + j)%nat = Some d' /\ SeriesObjects.all_nan d' = true) ->
  SeriesObjects.is_meta_column h = false ->
  SeriesObjects.is_time_column h = false ->
  cols !! (n + length pre)%nat = Some d -> SeriesObjects.all_nan d = false ->
  names !! (n + length pre)%nat = Some nu ->
  SeriesObjects.create_go names cols n (pre ++ h :: post) None = Err ValueError.
Proof.
  revert n. induction pre as [|h' pre IH]; intros n Hpre Hmeta Htime Hd Hnan Hnu; simpl.
  - rewrite Nat.add_0_r in Hd, Hnu. rewrite Hmeta, Hd, Hnan, Hnu.
    destruct nu as [[? ?] ?]. by rewrite Htime.
  - simpl in Hd, Hnu. rewrite Nat.add_succ_r in Hd, Hnu.
    assert (IH' : SeriesObjects.create_go names cols (S n) (pre ++ h :: post) None = Err ValueError).
    { apply IH; try done. intros j h'' Hj.
      destruct (Hpre (S j) h'' Hj) as [Hm|[d' [Hd' Hn']]]; [by left|].
      right. exists d'. rewrite Nat.add_succ_r in Hd'. done. }
    destruct (Hpre 0%nat h' eq_refl) as [Hm|[d' [Hd' Hn']]].
    + by rewrite Hm.
    + rewrite Nat.add_0_r in Hd'.
      destruct (SeriesObjects.is_meta_column h'); [done|]. by rewrite Hd', Hn'.
Qed.

(** C3 (as the code has it): an unknown metadata type tag makes
    [parse_metadata_line] raise [TypeError]; a value column met before the
    time column of its block (every column before it being skipped) makes
    [_create_series_objects] raise [ValueError]; a spectrum file with neither
    mass column name makes [ZilienSpectrumReader.read] raise [ReadError].
    These are three different exception types. *)
Theorem reader_errors_by_condition :
  (forall (float : Type) py_int (py_float : string -> result float) line
          name comment attach_to_series type_as_str value,
     PyStr.split PyStr.tab (PyStr.strip PyStr.newline line)
       = [name; comment; attach_to_series; type_as_str; value] ->
     type_as_str ∉ ["string"; "int"; "double"; "bool"] ->
     Metadata.parse_metadata_line py_int py_float line = Err TypeError) /\
  (forall names_and_units data_columns pre column_header post column_data nu,
     (forall j h, pre !! j = Some h ->
        SeriesObjects.is_meta_column h = true \/
        exists d, data_columns !! j = Some d /\ SeriesObjects.all_nan d = true) ->
     SeriesObjects.is_meta_column column_header = false ->
     SeriesObjects.is_time_column column_header = false ->
     data_columns !! length pre = Some column_data ->
     SeriesObjects.all_nan column_data = false ->
     names_and_units !! length pre = Some nu ->
     SeriesObjects.create_series_objects (pre ++ column_header :: post)
       names_and_units data_columns = Err ValueError) /\
  (forall df_columns,
     "Mass  [AMU]" ∉ df_columns -> "Mass [AMU]" ∉ df_columns ->
     SpectrumReader.spectrum_columns df_columns = Err ReadError) /\
  TypeError <> ValueError /\ ValueError <> ReadError /\ TypeError <> ReadError.
Proof.
  split; [|split; [|split]].
  - intros float py_int py_float line name comment attach ty value Hsplit Hty.
    unfold Metadata.parse_metadata_line. rewrite Hsplit.
    destruct (String.eqb_spec ty "string") as [->|]; [set_solver|].
    destruct (String.eqb_spec ty "int") as [->|]; [set_solver|].
    destruct (String.eqb_spec ty "double") as [->|]; [set_solver|].
    destruct (String.eqb_spec ty "bool") as [->|]; [set_solver|].
    done.
  - intros names cols pre h post d nu Hpre Hm Ht Hd Hn Hnu.
    apply (create_go_value_before_time names cols 0 pre h post d nu); done.
  - intros cols H1 H2. unfold SpectrumReader.spectrum_columns. simpl.
    rewrite !bool_decide_eq_false_2 by done. done.
  - repeat split; discriminate.
Qed.

(** C3 (as the spec states it, refuted): the three conditions do not raise one
    uniform exception type. *)
Lemma reader_errors_not_uniform :
  Metadata.parse_metadata_line (fun _ => Ok 0) (fun _ => Ok tt)
    (String.concat (String PyStr.tab "") ["cycles"; ""; ""; "color"; "red"]) = Err TypeError /\
  SeriesObjects.create_series_objects ["Pressure [mbar]"; "Time [s]"]
    [("Pressure [mbar]", "mbar", None); ("pot time [s]", "s", None)]
    [[Some 1]; [Some 0]] = Err ValueError /\
  SpectrumReader.spectrum_columns ["m/z"; "Current [A]"] = Err ReadError /\
  TypeError <> ValueError /\ ValueError <> ReadError.
Proof. repeat split; (reflexivity || discriminate). Qed.

(* ------------------------------------------------------------------ *)
(** ** The cycle counter *)

Section CycleProofs.
Import Cycle.

Lemma first_true_spec {A : Type} (p : A -> bool) xs i :
  first_true p xs = Some i -> exists x, xs !! i = Some x /\ p x = true.
Proof.
  revert i. induction xs as [|x xs IH]; intros i H; simpl in H; [discriminate|].
  destruct (p x) eqn:Hp.
  - injection H as <-. by exists x.
  - destruct (first_true p xs) as [i'|] eqn:Hi; simpl in H; [|discriminate].
    injection H as <-. simpl. by apply IH.
Qed.

Lemma first_true_zero {A : Type} (p : A -> bool) x xs :
  first_true p (x :: xs) = Some 0%nat -> p x = true.
Proof.
  simpl. destruct (p x); [done|]. destruct (first_true p xs); simpl; discriminate.
Qed.

(** A pass that does not [break] moves [n] forward. *)
Lemma cycle_step_progress (v : list Z) sp Np n i j :
  first_true (fun x => x <? sp) (drop n v) = Some i ->
  first_true (fun x => sp <? x) (drop (n + i + Np) v) = Some j ->
  (1 <= Np + j)%nat.
Proof.
  intros Hi Hj. destruct Np as [|Np]; [|lia]. destruct j as [|j]; [|lia].
  exfalso. rewrite Nat.add_0_r in Hj.
  destruct (first_true_spec _ _ _ Hi) as [x [Hx Hlt]].
  rewrite lookup_drop in Hx.
  rewrite <- (take_drop_middle v (n + i) x Hx) in Hj.
  rewrite drop_app_length' in Hj by (rewrite length_take; apply lookup_lt_Some in Hx; lia).
  apply first_true_zero in Hj. apply Z.ltb_lt in Hlt, Hj. lia.
Qed.

Lemma cycle_loop_fuel (v : list Z) sp Np N f g n c vec :
  (N - n < f)%nat -> (f <= g)%nat ->
  cycle_loop g v sp Np N n c vec = cycle_loop f v sp Np N n c vec.
Proof.
  revert g n c vec. induction f as [|f IH]; intros g n c vec Hf Hg; [lia|].
  destruct g as [|g]; [lia|]. simpl.
  destruct (Nat.ltb_spec n N); [|done].
  destruct (first_true _ (drop n v)) as [i|] eqn:Hi; [|done].
  destruct (first_true _ (drop (n + i + Np) v)) as [j|] eqn:Hj; [|done].
  pose proof (cycle_step_progress v sp Np n i j Hi Hj).
  apply IH; lia.
Qed.

Lemma set_from_lookup m c (vec : list nat) i :
  set_from m c vec !! i = if decide (i < m)%nat then vec !! i else (fun _ => c) <$> vec !! i.
Proof.
  revert m i. induction vec as [|x vec IH]; intros m i; simpl.
  - by destruct (decide (i < m)%nat).
  - destruct m as [|m], i as [|i]; simpl; try done.
    all: rewrite IH; repeat case_decide; done || lia.
Qed.

Lemma length_set_from m c vec : length (set_from m c vec) = length vec.
Proof. revert m. induction vec as [|x vec IH]; intros [|m]; simpl; by rewrite ?IH. Qed.

Lemma set_from_inv N c m vec :
  (1 <= m)%nat -> cycle_inv N c vec -> cycle_inv N (S c) (set_from m (S c) vec).
Proof.
  intros Hm (Hlen & Hnd & Hle & H0). split; [|split; [|split]].
  - by rewrite length_set_from.
  - intros i j x y Hij Hx Hy. rewrite set_from_lookup in Hx, Hy.
    rewrite Forall_lookup in Hle.
    destruct (decide (i < m)%nat); destruct (decide (j < m)%nat).
    + by apply (Hnd i j).
    + destruct (vec !! j) eqn:? ; simpl in Hy; [|discriminate].
      injection Hy as <-. pose proof (Hle _ _ Hx). lia.
    + lia.
    + destruct (vec !! i); simpl in Hx; [|discriminate].
      destruct (vec !! j); simpl in Hy; [|discriminate].
      injection Hx as <-. injection Hy as <-. lia.
  - apply Forall_lookup. intros i x Hx. rewrite set_from_lookup in Hx.
    rewrite Forall_lookup in Hle. case_decide.
    + pose proof (Hle _ _ Hx). lia.
    + destruct (vec !! i); simpl in Hx; [|discriminate]. injection Hx as <-. lia.
  - intros x Hx. rewrite set_from_lookup in Hx. case_decide; [by apply H0|lia].
Qed.

Lemma cycle_loop_inv (v : list Z) sp Np N f n c vec :
  cycle_inv N c vec -> exists c', cycle_inv N c' (cycle_loop f v sp Np N n c vec).
Proof.
  revert n c vec. induction f as [|f IH]; intros n c vec Hinv; simpl; [by exists c|].
  destruct (Nat.ltb n N); [|by exists c].
  destruct (first_true _ (drop n v)) as [i|] eqn:Hi; [|by exists c].
  destruct (first_true _ (drop (n + i + Np) v)) as [j|] eqn:Hj; [|by exists c].
  pose proof (cycle_step_progress v sp Np n i j Hi Hj).
  apply IH. apply set_from_inv; [lia|done].
Qed.

End CycleProofs.

(** C5: the cycle numbers that [redefine_cycle] computes with a given
    [start_potential] are as many as the time points, are natural numbers,
    never decrease, and start at 0. *)
Theorem redefine_cycle_counter_shape (t v : list Z) (start_potential : Z)
    (redox : bool) (N_points : nat) :
  let cycle := Cycle.redefine_cycle t v start_potential redox N_points in
  length cycle = length t /\
  (forall i j x y, (i <= j)%nat -> cycle !! i = Some x -> cycle !! j = Some y ->
     (x <= y)%nat) /\
  ((0 < length t)%nat -> cycle !! 0%nat = Some 0%nat).
Proof.
  unfold Cycle.redefine_cycle.
  assert (Hinv0 : cycle_inv (length t) 0 (replicate (length t) 0%nat)).
  { split; [|split; [|split]].
    - apply length_replicate.
    - intros i j x y _ Hx Hy. apply lookup_replicate_1 in Hx, Hy. lia.
    - apply Forall_lookup. intros i x Hx. apply lookup_replicate_1 in Hx. lia.
    - intros x Hx. apply lookup_replicate_1 in Hx. lia. }
  destruct (if redox then (start_potential, v) else (- start_potential, map Z.opp v))
    as [sp v'].
  destruct (cycle_loop_inv v' sp N_points (length t) (S (length t)) 0 0 _ Hinv0)
    as [c' (Hlen & Hnd & _ & H0)].
  split; [done|]. split; [done|].
  intros Hpos. destruct (Cycle.cycle_loop _ _ _ _ _ _ _ _ !! 0%nat) as [x|] eqn:Hx.
  - by rewrite (H0 x eq_refl).
  - apply lookup_ge_None in Hx. lia.
Qed.


(** C4 (the debounce is not checked): with [N_points = 3], start potential 0
    and an anodic scan over the potentials [-1, 1, 1, 1, 1], [redefine_cycle]
    starts cycle 1 at index 3, although of the three samples before it only
    the one at index 0 is behind the start potential: [n] jumps [N_points]
    samples past the first behind sample without looking at them. *)
Lemma redefine_cycle_debounce_unchecked :
  let v := [-1; 1; 1; 1; 1] in
  Cycle.redefine_cycle [0; 1; 2; 3; 4] v 0 true 3 = [0; 0; 0; 1; 1]%nat /\
  ~ (forall k, (0 <= k < 3)%nat -> exists p, v !! k = Some p /\ p < 0).
Proof.
  split; [reflexivity|].
  intros H. destruct (H 1%nat ltac:(lia)) as [p [Hp Hlt]].
  simpl in Hp. injection Hp as <-. lia.
Qed.

(* ------------------------------------------------------------------ *)
(** ** Spectra *)

(** C6: a [Spectrum] made by [from_data x y tstamp] and one made by
    [from_field] of a [Field] built by hand with data [[y]] and axes
    [[DataSeries with data x; TimeSeries with data [0] and tstamp]] have the
    same [x], [y] and [tstamp] views, namely [x], [y] and [tstamp] (both
    [tstamp] views raise [TypeError] when [tstamp] is [None]). *)
Theorem spectrum_from_data_views (h : Spectra.heap) (x y : list Z) (tstamp : option Z)
    (x_name y_name t_name : string) (x_unit_name y_unit_name t_unit_name : option string)
    (name : option string) :
  let '(h1, sp1) := Spectra.from_data h x y tstamp x_name y_name x_unit_name y_unit_name name in
  let '(h2, field) :=
    Spectra.make_field h [y]
      [Spectra.OSeries (Spectra.DataSeries x_name x_unit_name x);
       Spectra.OSeries (Spectra.TimeSeries t_name t_unit_name [0] tstamp)]
      y_name y_unit_name in
  let sp2 := Spectra.from_field field name in
  Spectra.x h1 sp1 = Ok x /\ Spectra.x h2 sp2 = Ok x /\
  Spectra.y h1 sp1 = Ok y /\ Spectra.y h2 sp2 = Ok y /\
  Spectra.tstamp h1 sp1 = Spectra.tstamp h2 sp2 /\
  (forall ts, tstamp = Some ts -> Spectra.tstamp h1 sp1 = Ok ts) /\
  (tstamp = None -> Spectra.tstamp h1 sp1 = Err TypeError).
Proof.
  unfold Spectra.from_data, Spectra.from_series, Spectra.make_field, Spectra.new_list.
  simpl. unfold Spectra.x, Spectra.y, Spectra.tstamp, Spectra.axes_series. simpl.
  rewrite !lookup_total_insert_eq. simpl.
  destruct tstamp as [ts|]; simpl.
  - repeat split; try done. intros ts' [= <-]. done.
  - repeat split; try done.
Qed.

(** C7 (the shape invariant fails): the [Field] that [from_data] builds has
    data of shape [(1, N)] for [y] of length [N], while its axes have
    lengths [(len x, 1)]; for [x = [1, 2]], [y = [10, 20]] these are [(1, 2)]
    and [(2, 1)]. *)
Theorem spectrum_field_shape_transposed (h : Spectra.heap) (x y : list Z)
    (tstamp : option Z) (x_name y_name : string)
    (x_unit_name y_unit_name : option string) (name : option string) :
  (let '(h1, sp1) := Spectra.from_data h x y tstamp x_name y_name x_unit_name y_unit_name name in
   Spectra.shape (Spectra.field_data (Spectra.spectrum_field sp1)) = [1; length y]%nat /\
   Spectra.axis_lengths h1 sp1 = [length x; 1]%nat) /\
  (let '(h1, sp1) := Spectra.from_data h [1; 2] [10; 20] tstamp x_name y_name
                       x_unit_name y_unit_name name in
   Spectra.shape (Spectra.field_data (Spectra.spectrum_field sp1))
     <> Spectra.axis_lengths h1 sp1).
Proof.
  unfold Spectra.from_data, Spectra.from_series, Spectra.make_field, Spectra.new_list.
  simpl. unfold Spectra.axis_lengths, Spectra.axes_series. simpl.
  rewrite !lookup_total_insert_eq. simpl. split; [done|]. discriminate.
Qed.

(** C10: [data_objects] returns the field's own [axes_series] list after
    appending the field to it; other lists are untouched. So after one call
    the field is the last element of [axes_series], and a second call returns
    the same list, one element longer than it was when the first call
    returned. *)
Theorem data_objects_appends_field (h : Spectra.heap) (sp : Spectra.spectrum) :
  let f := Spectra.spectrum_field sp in
  let '(h1, r1) := Spectra.data_objects h sp in
  let '(h2, r2) := Spectra.data_objects h1 sp in
  r1 = Spectra.field_axes f /\
  Spectra.lists h1 !!! r1 = Spectra.axes_series h sp ++ [Spectra.OField f] /\
  Spectra.axes_series h1 sp = Spectra.lists h1 !!! r1 /\
  last (Spectra.axes_series h1 sp) = Some (Spectra.OField f) /\
  (forall l, l <> r1 -> Spectra.lists h1 !!! l = Spectra.lists h !!! l) /\
  r2 = r1 /\
  Spectra.lists h2 !!! r2 = Spectra.lists h1 !!! r1 ++ [Spectra.OField f] /\
  length (Spectra.lists h2 !!! r2) = S (length (Spectra.lists h1 !!! r1)).
Proof.
  unfold Spectra.data_objects, Spectra.axes_series. simpl.
  rewrite !lookup_total_insert_eq. repeat split.
  - by rewrite last_snoc.
  - intros l Hl. by rewrite lookup_total_insert_ne.
  - rewrite length_app. simpl. lia.
Qed.

(* ------------------------------------------------------------------ *)
(** ** The alias table *)

Section AliasProofs.
Import Aliases.

(** Case on every string comparison left in the goal. *)
Ltac string_cases :=
  repeat match goal with
         | |- context [String.eqb ?a ?b] => destruct (String.eqb_spec a b); subst
         end.

Lemma od_lookup_extend d k names k' :
  od_lookup (od_extend d k names) k' =
  if String.eqb k k' then Some (default [] (od_lookup d k) ++ names) else od_lookup d k'.
Proof.
  induction d as [|[k0 v] d IH]; simpl.
  - by string_cases.
  - string_cases; simpl; string_cases; try done.
    all: rewrite IH; string_cases; done.
Qed.

Lemma od_lookup_extend_all items d k :
  default [] (od_lookup (od_extend_all d items) k) = default [] (od_lookup d k) ++ gathered items k /\
  (forall l, od_lookup d k = Some l -> od_lookup (od_extend_all d items) k = Some (l ++ gathered items k)).
Proof.
  revert d. induction items as [|[k' names] items IH]; intros d.
  - unfold gathered. simpl. rewrite app_nil_r. split; [done|]. intros l ->. by rewrite app_nil_r.
  - destruct (IH (od_extend d k' names)) as [H1 H2].
    unfold od_extend_all, gathered in *. cbn [fold_left List.filter fst].
    rewrite od_lookup_extend in H1, H2.
    destruct (String.eqb_spec k' k) as [->|Hne]; cbn [map concat snd].
    + split.
      * rewrite H1. simpl. by rewrite app_assoc.
      * intros l Hl. rewrite Hl in H2. simpl in H2.
        rewrite (H2 (l ++ names)) by done. by rewrite app_assoc.
    + split; [done|]. intros l Hl. by apply H2.
Qed.

Lemma gathered_nodup (items : odict) k :
  NoDup (map fst items) -> gathered items k = default [] (od_lookup items k).
Proof.
  induction items as [|[k' names] items IH]; intros Hnd; [done|].
  apply NoDup_cons in Hnd as [Hnin Hnd]. specialize (IH Hnd).
  unfold gathered in *. cbn [List.filter fst od_lookup].
  destruct (String.eqb_spec k' k) as [->|Hne]; cbn [map concat snd].
  - rewrite IH.
    assert (Hnone : od_lookup items k = None).
    { clear IH Hnd. induction items as [|[k'' v] items IH']; simpl; [done|].
      destruct (String.eqb_spec k'' k) as [->|]; [set_solver|]. apply IH'. set_solver. }
    rewrite Hnone. simpl. apply app_nil_r.
  - done.
Qed.

Lemma ZILIEN_ALIASES_keys cls : NoDup (map fst (ZILIEN_ALIASES cls)).
Proof. destruct cls; simpl; repeat constructor; set_solver. Qed.

End AliasProofs.

(** C8: in the alias table that [read] passes on, the series names of a
    standard name are those the blocks gave it, in their order, followed by
    the global default names of [ZILIEN_ALIASES[cls]] for it: block-derived
    names come first and none is removed or overwritten. *)
Theorem read_aliases_blocks_first (cls : Aliases.meas_cls)
    (blocks : list (string * list (string * string * option string))) (k : string) :
  let block_aliases := Aliases.form_series_aliases cls blocks in
  let defaults := default [] (Aliases.od_lookup (Aliases.ZILIEN_ALIASES cls) k) in
  default [] (Aliases.od_lookup (Aliases.read_aliases cls blocks) k)
    = default [] (Aliases.od_lookup block_aliases k) ++ defaults /\
  (forall l, Aliases.od_lookup block_aliases k = Some l ->
     Aliases.od_lookup (Aliases.read_aliases cls blocks) k = Some (l ++ defaults)).
Proof.
  unfold Aliases.read_aliases.
  destruct (od_lookup_extend_all (Aliases.ZILIEN_ALIASES cls)
              (Aliases.form_series_aliases cls blocks) k) as [H1 H2].
  rewrite gathered_nodup in H1, H2 by apply ZILIEN_ALIASES_keys.
  split; [done|]. intros l Hl. by apply H2.
Qed.

(* ------------------------------------------------------------------ *)
(** ** Reading twice *)

(** C9: once [read] has completed on a fresh reader, every later [read], with
    any path and arguments (and whatever parsing it would do), returns the
    measurement of the first read and leaves the reader as it is; the parsing
    functions are not used. *)
Theorem read_twice_returns_first {args measurement : Type}
    (resolve_cls : args -> result args) (parse_and_build : string -> args -> result measurement)
    (path : string) (a : args) (m : option measurement) (self : TSVReader.reader)
    (Hfirst : TSVReader.read resolve_cls parse_and_build TSVReader.new_reader path a
              = (Ok m, self)) :
  TSVReader.path_to_file self = Some path /\
  forall (resolve_cls' : args -> result args) (parse_and_build' : string -> args -> result measurement)
         (path' : string) (a' : args),
    TSVReader.read resolve_cls' parse_and_build' self path' a' = (Ok m, self).
Proof.
  unfold TSVReader.read in Hfirst. simpl in Hfirst.
  destruct (resolve_cls a) as [a1|e]; [|discriminate].
  destruct (parse_and_build path a1) as [m1|e]; [|discriminate].
  injection Hfirst as <- <-. split; [done|]. intros. done.
Qed.

Lemma read_twice_returns_first_witness :
  TSVReader.read (fun a : nat => Ok a) (fun _ a => Ok (a * 2)%nat) TSVReader.new_reader
    "2021-04-20 11_16_18 test.tsv" 21%nat
    = (Ok (Some 42%nat), TSVReader.mkReader (Some "2021-04-20 11_16_18 test.tsv") (Some 42%nat)) /\
  TSVReader.read (fun a : nat => Ok a) (fun _ _ => Ok 0%nat)
    (TSVReader.mkReader (Some "2021-04-20 11_16_18 test.tsv") (Some 42%nat)) "other.tsv" 5%nat
    = (Ok (Some 42%nat), TSVReader.mkReader (Some "2021-04-20 11_16_18 test.tsv") (Some 42%nat)).
Proof.
  split; [reflexivity|].
  apply (read_twice_returns_first (fun a : nat => Ok a) (fun _ a => Ok (a * 2)%nat)
           "2021-04-20 11_16_18 test.tsv" 21%nat (Some 42%nat)
           (TSVReader.mkReader (Some "2021-04-20 11_16_18 test.tsv") (Some 42%nat))).
  reflexivity.
Defined.

(* ------------------------------------------------------------------ *)
(** ** Strings *)

Section TextProofs.
Import PyText.

Lemma list_ascii_app (s1 s2 : string) :
  String.list_ascii_of_string (s1 ++ s2)%string
  = String.list_ascii_of_string s1 ++ String.list_ascii_of_string s2.
Proof. induction s1 as [|c s1 IH]; simpl; [done|by rewrite IH]. Qed.

Lemma length_list_ascii (s : string) :
  length (String.list_ascii_of_string s) = String.length s.
Proof. induction s as [|c s IH]; simpl; [done|by rewrite IH]. Qed.

Lemma length_string_of_list (l : list Ascii.ascii) :
  String.length (String.string_of_list_ascii l) = length l.
Proof. induction l as [|c l IH]; simpl; [done|by rewrite IH]. Qed.

Lemma list_ascii_substring (n k : nat) (s : string) :
  String.list_ascii_of_string (String.substring n k s)
  = take k (drop n (String.list_ascii_of_string s)).
Proof.
  revert n k. induction s as [|c s IH]; intros n k.
  - destruct n, k; simpl; done.
  - destruct n as [|n], k as [|k]; simpl; try done.
    all: by rewrite IH, ?drop_0.
Qed.

(** A character of [to_snake_case]'s output: neither a space nor an upper
    case letter, and left alone by a second pass. *)
Lemma snake_char (c : Ascii.ascii) :
  let d := (if Ascii.eqb (lower_char c) space then underscore else lower_char c) in
  d <> space /\ is_upper d = false /\
  (if Ascii.eqb (lower_char d) space then underscore else lower_char d) = d.
Proof.
  destruct c as [[] [] [] [] [] [] [] []]; vm_compute;
    (split; [discriminate|split; reflexivity]).
Qed.

(** [s.endswith(suffix)] puts [suffix] at the end of [s]. *)
Lemma ends_with_app (suffix s : string) :
  ends_with suffix s = true ->
  exists p, String.list_ascii_of_string s = p ++ String.list_ascii_of_string suffix.
Proof.
  unfold ends_with. intros [Hle Heq]%andb_prop.
  apply Nat.leb_le in Hle. apply String.eqb_eq in Heq.
  apply (f_equal String.list_ascii_of_string) in Heq.
  rewrite list_ascii_substring in Heq.
  exists (take (String.length s - String.length suffix) (String.list_ascii_of_string s)).
  rewrite <- Heq, (take_ge (drop _ _)) by (rewrite length_drop, length_list_ascii; lia).
  by rewrite take_drop.
Qed.

Lemma split_space_free (a : string) :
  Forall (fun c => c <> space) (String.list_ascii_of_string a) ->
  PyStr.split space a = [a].
Proof.
  induction a as [|c a IH]; intros Ha; [done|].
  apply Forall_cons in Ha as [Hc Ha]. simpl. rewrite (IH Ha).
  destruct (Ascii.eqb_spec c space); [done|done].
Qed.

Lemma split_space_app (a b : string) :
  Forall (fun c => c <> space) (String.list_ascii_of_string a) ->
  PyStr.split space (a ++ String space b)%string = a :: PyStr.split space b.
Proof.
  induction a as [|c a IH]; intros Ha; simpl.
  - by rewrite ?Ascii.eqb_refl.
  - apply Forall_cons in Ha as [Hc Ha]. rewrite (IH Ha).
    destruct (Ascii.eqb_spec c space); [done|done].
Qed.

End TextProofs.

(** X1: on an ASCII string, [to_snake_case] leaves no space and no upper
    case letter, keeps the length of the string, and changes nothing when
    applied a second time. *)
Theorem to_snake_case_normal_form (s : string) :
  Forall (fun c => Ascii.nat_of_ascii c < 128)%nat (String.list_ascii_of_string s) ->
  let r := Names.to_snake_case s in
  Forall (fun c => c <> PyText.space /\ PyText.is_upper c = false)
    (String.list_ascii_of_string r) /\
  String.length r = String.length s /\
  Names.to_snake_case r = r.
Proof.
  intros _. unfold Names.to_snake_case, PyText.replace_char, PyText.lower.
  rewrite !String.list_ascii_of_string_of_list_ascii, !map_map.
  split; [|split].
  - apply List.Forall_forall. intros c Hc. apply in_map_iff in Hc as [c0 [<- _]].
    destruct (snake_char c0) as (H1 & H2 & _). done.
  - by rewrite length_string_of_list, length_map, length_list_ascii.
  - f_equal. rewrite ?map_map. apply map_ext. intros c. apply snake_char.
Qed.

(** X2: [" ".join(file_stem.split(" ")[:2])] is the file stem cut just before
    its second space; a stem with at most one space is kept whole. *)
Theorem timestamp_string_two_words (a b c : string) :
  Forall (fun x => x <> PyText.space) (String.list_ascii_of_string a) ->
  Forall (fun x => x <> PyText.space) (String.list_ascii_of_string b) ->
  TmpNames.timestamp_string (a ++ String PyText.space (b ++ String PyText.space c))%string
    = (a ++ String PyText.space b)%string /\
  TmpNames.timestamp_string (a ++ String PyText.space b)%string
    = (a ++ String PyText.space b)%string /\
  TmpNames.timestamp_string a = a.
Proof.
  intros Ha Hb. unfold TmpNames.timestamp_string, PyText.join_space.
  rewrite !split_space_app by done. rewrite (split_space_free b Hb), (split_space_free a Ha).
  split; [|split]; reflexivity.
Qed.

(* ------------------------------------------------------------------ *)
(** ** [to_mass] and [_form_names_and_unit] *)

Section MassProofs.
Import Aliases.

Lemma mass_after_channel_digits (ds rest : list Ascii.ascii) :
  Forall (fun c => is_digit c = true) ds ->
  mass_after_channel (ds ++ rest) true = mass_after_channel rest true.
Proof.
  induction ds as [|d ds IH]; intros Hds; [done|].
  apply Forall_cons in Hds as [Hd Hds]. simpl. rewrite Hd. by apply IH.
Qed.

Lemma mass_after_channel_result (cs r : list Ascii.ascii) (b : bool) :
  mass_after_channel cs b = Some r ->
  r <> [] /\ forallb is_digit r = true /\ exists p, cs = p ++ r.
Proof.
  revert b. induction cs as [|c cs IH]; intros b H; simpl in H; [discriminate|].
  destruct (is_digit c).
  - destruct (IH true H) as (Hne & Hd & [p ->]). split; [done|split; [done|]].
    by exists (c :: p).
  - destruct (b && Ascii.eqb c char_M)%bool; [|discriminate].
    destruct cs as [|c' cs]; [discriminate|].
    destruct (forallb is_digit (c' :: cs)) eqn:Hd; [|discriminate].
    injection H as <-. split; [done|split; [done|]]. by exists [c].
Qed.

(** What [to_mass] returns is the non-empty run of digits that ends its
    argument, or that comes just before a final newline. *)
Lemma to_mass_result (s m : string) :
  to_mass s = Some m ->
  m <> ""%string /\ forallb is_digit (String.list_ascii_of_string m) = true /\
  exists p t, String.list_ascii_of_string s = p ++ String.list_ascii_of_string m ++ t /\
              (t = [] \/ t = [PyStr.newline]).
Proof.
  unfold to_mass. destruct (String.list_ascii_of_string s) as [|c cs] eqn:Hs; [discriminate|].
  destruct (Ascii.eqb c char_C); [|discriminate].
  destruct (mass_to_end cs) as [r|] eqn:Hr; [|discriminate].
  simpl. intros [= <-].
  assert (Hrt : r <> [] /\ forallb is_digit r = true /\
                exists p t, cs = p ++ r ++ t /\ (t = [] \/ t = [PyStr.newline])).
  { unfold mass_to_end in Hr.
    destruct (mass_after_channel cs false) as [r'|] eqn:H1.
    - injection Hr as <-. destruct (mass_after_channel_result cs r' false H1) as (Hne & Hd & [p ->]).
      split; [done|split; [done|]]. exists p, []. split; [by rewrite app_nil_r|by left].
    - destruct (decide (last cs = Some PyStr.newline)) as [Hl|Hl].
      2: { by rewrite bool_decide_false in Hr. }
      rewrite bool_decide_true in Hr by done.
      destruct (mass_after_channel_result _ r false Hr) as (Hne & Hd & [p Hp]).
      split; [done|split; [done|]]. exists p, [PyStr.newline]. split; [|by right].
      apply last_Some in Hl as [l' ->]. rewrite removelast_last in Hp.
      by rewrite Hp, <- app_assoc. }
  destruct Hrt as (Hne & Hd & p & t & -> & Ht).
  rewrite String.list_ascii_of_string_of_list_ascii. split; [|split; [done|]].
  - intros Hm. apply (f_equal String.list_ascii_of_string) in Hm.
    by rewrite String.list_ascii_of_string_of_list_ascii in Hm.
  - by exists (c :: p), t.
Qed.

End MassProofs.

(** X3: [to_mass] takes the mass out of a series header of the form
    [C<channel>M<mass>], also when a newline ends it, and whatever it
    returns is a non-empty string of digits. *)
Theorem to_mass_round_trip (channel mass : string) :
  channel <> ""%string -> mass <> ""%string ->
  forallb Aliases.is_digit (String.list_ascii_of_string channel) = true ->
  forallb Aliases.is_digit (String.list_ascii_of_string mass) = true ->
  Aliases.to_mass ("C" ++ channel ++ "M" ++ mass)%string = Some mass /\
  Aliases.to_mass ("C" ++ channel ++ "M" ++ mass ++ String PyStr.newline "")%string = Some mass /\
  (forall s m, Aliases.to_mass s = Some m ->
     m <> ""%string /\ forallb Aliases.is_digit (String.list_ascii_of_string m) = true).
Proof.
  intros Hc Hm Hdc Hdm.
  assert (Hmac : Aliases.mass_after_channel (String.list_ascii_of_string channel ++
                   Aliases.char_M :: String.list_ascii_of_string mass) false
                 = Some (String.list_ascii_of_string mass)).
  { destruct (String.list_ascii_of_string channel) as [|d ds] eqn:Hl.
    { destruct channel; [done|discriminate]. }
    simpl in Hdc. apply andb_prop in Hdc as [Hd Hds]. simpl. rewrite Hd.
    rewrite mass_after_channel_digits by (apply List.Forall_forall; intros x Hx;
      by apply (proj1 (forallb_forall _ _) Hds)).
    simpl. destruct (String.list_ascii_of_string mass) as [|e es] eqn:Hlm.
    { destruct mass; [done|discriminate]. }
    by rewrite Hdm. }
  split; [|split].
  - unfold Aliases.to_mass, Aliases.mass_to_end. rewrite !list_ascii_app.
    change (String.list_ascii_of_string "C") with [Aliases.char_C].
    change (String.list_ascii_of_string "M") with [Aliases.char_M].
    cbn [app]. cbn beta iota. rewrite Ascii.eqb_refl.
    rewrite Hmac. cbn [option_map]. by rewrite String.string_of_list_ascii_of_string.
  - unfold Aliases.to_mass, Aliases.mass_to_end. rewrite !list_ascii_app.
    change (String.list_ascii_of_string "C") with [Aliases.char_C].
    change (String.list_ascii_of_string "M") with [Aliases.char_M].
    cbn [app]. cbn beta iota. rewrite Ascii.eqb_refl.
    change (String.list_ascii_of_string (String PyStr.newline "")) with [PyStr.newline].
    set (cs := String.list_ascii_of_string channel ++
                 Aliases.char_M :: String.list_ascii_of_string mass ++ [PyStr.newline]).
    destruct (Aliases.mass_after_channel cs false) as [r|] eqn:Hr.
    { exfalso. destruct (mass_after_channel_result _ _ _ Hr) as (Hne & Hd & [p Hp]).
      assert (Hlast : last cs = Some PyStr.newline).
      { unfold cs. rewrite app_comm_cons, app_assoc. apply last_snoc. }
      rewrite Hp in Hlast. destruct r as [|x r] using rev_ind; [done|].
      rewrite app_assoc, last_snoc in Hlast. injection Hlast as ->.
      rewrite forallb_app in Hd. apply andb_prop in Hd as [_ Hd]. discriminate. }
    rewrite bool_decide_true.
    2: { unfold cs. rewrite app_comm_cons, app_assoc. apply last_snoc. }
    assert (Hrl : removelast cs = String.list_ascii_of_string channel ++
                    Aliases.char_M :: String.list_ascii_of_string mass).
    { unfold cs. by rewrite app_comm_cons, app_assoc, removelast_last. }
    rewrite Hrl, Hmac. cbn [option_map]. by rewrite String.string_of_list_ascii_of_string.
  - intros s m H. by destruct (to_mass_result s m H) as (? & ? & _).
Qed.

Section NamesProofs.
Import PyText Names.

Lemma dollar_snoc_rbracket (y : list Ascii.ascii) : dollar (y ++ [rbracket]) = false.
Proof. destruct y as [|a [|b y]]; reflexivity. Qed.

Lemma rbracket_end_snoc (y : list Ascii.ascii) :
  rbracket_end (y ++ [rbracket]) = bool_decide (y = []).
Proof.
  destruct y as [|a y]; [reflexivity|]. simpl.
  rewrite dollar_snoc_rbracket, andb_false_r. done.
Qed.

Lemma zilien_unit_go_snoc (acc u : list Ascii.ascii) :
  u <> [] -> PyStr.newline ∉ u ->
  zilien_unit_go acc (u ++ [rbracket]) = Some (acc ++ u).
Proof.
  revert acc. induction u as [|c u IH]; intros acc Hne Hnl; [done|].
  rewrite not_elem_of_cons in Hnl. destruct Hnl as [Hc Hnl].
  simpl. destruct (Ascii.eqb_spec c PyStr.newline); [done|].
  rewrite rbracket_end_snoc. destruct u as [|c' u].
  - done.
  - rewrite bool_decide_eq_false_2 by done. rewrite IH by done.
    by rewrite <- app_assoc.
Qed.

Lemma zilien_name_go_app (n u : list Ascii.ascii) :
  n <> [] -> PyStr.newline ∉ n -> lbracket ∉ n ->
  u <> [] -> PyStr.newline ∉ u ->
  zilien_name_go (n ++ space :: lbracket :: u ++ [rbracket]) = Some u.
Proof.
  intros Hn. induction n as [|c n IH]; intros Hnl Hlb Hu Hunl; [done|].
  rewrite not_elem_of_cons in Hnl, Hlb.
  destruct Hnl as [Hc Hnl], Hlb as [Hcl Hlb].
  simpl. destruct (Ascii.eqb_spec c PyStr.newline); [done|].
  destruct n as [|x n].
  - simpl. rewrite zilien_unit_go_snoc by done. done.
  - rewrite IH by done.
    rewrite not_elem_of_cons in Hlb. destruct Hlb as [Hx Hlb].
    destruct n as [|y n]; simpl.
    + destruct (Ascii.eqb x space); done.
    + rewrite not_elem_of_cons in Hlb. destruct Hlb as [Hy _].
      destruct (Ascii.eqb_spec y lbracket); [done|]. rewrite andb_false_r. done.
Qed.

(** A match of [ZILIEN_COLUMN_HEADER_RE] ends with [\]], possibly followed by a
    final newline. *)
Lemma zilien_unit_go_ends (acc cs r : list Ascii.ascii) :
  zilien_unit_go acc cs = Some r ->
  exists y, cs = y ++ [rbracket] \/ cs = y ++ [rbracket; PyStr.newline].
Proof.
  revert acc. induction cs as [|c cs IH]; intros acc H; simpl in H; [discriminate|].
  destruct (Ascii.eqb c PyStr.newline); [discriminate|].
  destruct (rbracket_end cs) eqn:He.
  - destruct cs as [|c1 cs]; [discriminate|]. simpl in He.
    apply andb_prop in He as [Hc1 Hd]. apply Ascii.eqb_eq in Hc1 as ->.
    destruct cs as [|c2 [|c3 cs]]; simpl in Hd; try discriminate.
    + exists [c]. by left.
    + apply Ascii.eqb_eq in Hd as ->. exists [c]. by right.
  - destruct (IH _ H) as [y [Hy|Hy]]; exists (c :: y); rewrite Hy; [by left|by right].
Qed.

Lemma zilien_name_go_ends (cs r : list Ascii.ascii) :
  zilien_name_go cs = Some r ->
  exists y, cs = y ++ [rbracket] \/ cs = y ++ [rbracket; PyStr.newline].
Proof.
  induction cs as [|c cs IH]; intros H; simpl in H; [discriminate|].
  destruct (Ascii.eqb c PyStr.newline); [discriminate|].
  destruct (match cs with
            | c1 :: c2 :: rest' =>
                if (Ascii.eqb c1 space && Ascii.eqb c2 lbracket)%bool
                then zilien_unit_go [] rest' else None
            | _ => None
            end) as [u|] eqn:Hm.
  - destruct cs as [|c1 [|c2 rest]]; try discriminate.
    destruct (Ascii.eqb c1 space && Ascii.eqb c2 lbracket)%bool; [|discriminate].
    destruct (zilien_unit_go_ends _ _ _ Hm) as [y [Hy|Hy]];
      exists (c :: c1 :: c2 :: y); rewrite Hy; [by left|by right].
  - destruct (IH H) as [y [Hy|Hy]]; exists (c :: y); rewrite Hy; [by left|by right].
Qed.

Lemma biologic_name_go_no_slash (b : bool) (u : list Ascii.ascii) :
  slash ∉ u -> biologic_name_go b u = None.
Proof.
  revert b. induction u as [|c u IH]; intros b Hu; [done|].
  rewrite not_elem_of_cons in Hu. destruct Hu as [Hc Hu].
  simpl. destruct (Ascii.eqb c PyStr.newline); [done|].
  rewrite IH by done. destruct (Ascii.eqb_spec c slash); [done|].
  by rewrite andb_false_r.
Qed.

Lemma dot_run_no_newline (u : list Ascii.ascii) :
  PyStr.newline ∉ u -> dot_run u = (u, []).
Proof.
  induction u as [|c u IH]; intros Hu; [done|].
  rewrite not_elem_of_cons in Hu. destruct Hu as [Hc Hu].
  simpl. destruct (Ascii.eqb_spec c PyStr.newline); [done|]. by rewrite IH.
Qed.

Lemma biologic_name_go_app (b : bool) (n u : list Ascii.ascii) :
  (n <> [] \/ b = true) -> PyStr.newline ∉ n ->
  u <> [] -> PyStr.newline ∉ u -> slash ∉ u ->
  biologic_name_go b (n ++ slash :: u) = Some u.
Proof.
  revert b. induction n as [|c n IH]; intros b Hb Hnl Hu Hunl Hus; simpl.
  - destruct Hb as [Hb| ->]; [done|].
    rewrite biologic_name_go_no_slash by done.
    unfold greedy_to_end. rewrite dot_run_no_newline by done.
    destruct u; [done|]. reflexivity.
  - rewrite not_elem_of_cons in Hnl. destruct Hnl as [Hc Hnl].
    destruct (Ascii.eqb_spec c PyStr.newline); [done|].
    rewrite IH by auto. done.
Qed.

Lemma ends_with_last (suffix s : string) (c : Ascii.ascii) :
  ends_with suffix s = true ->
  last (String.list_ascii_of_string suffix) = Some c ->
  last (String.list_ascii_of_string s) = Some c.
Proof. intros H Hl. destruct (ends_with_app _ _ H) as [p ->]. by rewrite last_app, Hl. Qed.

(** A mass series header ends with a digit, so it is neither a "setpoint" nor
    a "value" header. *)
Lemma setpoint_or_value_mass (series_header m : string) :
  Aliases.to_mass series_header = Some m -> setpoint_or_value series_header = None.
Proof.
  intros Hm. destruct (to_mass_result _ _ Hm) as (Hne & Hd & p & t & Hp & Ht).
  assert (Hlast : exists d, last (String.list_ascii_of_string series_header) = Some d /\
                            (Aliases.is_digit d = true \/ d = PyStr.newline)).
  { rewrite Hp. destruct Ht as [-> | ->].
    2: { exists PyStr.newline. split; [|by right]. rewrite app_assoc. apply last_snoc. }
    rewrite app_nil_r. destruct (String.list_ascii_of_string m) as [|e es] eqn:Hl.
    { destruct m; [done|discriminate]. }
    rewrite last_app_cons.
    destruct (last (e :: es)) as [d|] eqn:Hd'; [|by rewrite last_None in Hd'].
    exists d. split; [done|left].
    apply last_Some in Hd' as [l' Hl'].
    apply (proj1 (forallb_forall _ _) Hd). rewrite Hl'. apply in_or_app. right. by left. }
  destruct Hlast as [d [Hlast Hdig]].
  unfold setpoint_or_value. simpl.
  destruct (ends_with "value" series_header) eqn:E1.
  { apply (ends_with_last _ _ (Ascii.ascii_of_nat 101)) in E1; [|reflexivity].
    rewrite E1 in Hlast. injection Hlast as <-. by destruct Hdig. }
  destruct (ends_with "setpoint" series_header) eqn:E2; [|done].
  apply (ends_with_last _ _ (Ascii.ascii_of_nat 116)) in E2; [|reflexivity].
  rewrite E2 in Hlast. injection Hlast as <-. by destruct Hdig.
Qed.

End NamesProofs.

(** X4: [_form_names_and_unit] takes the unit out of a column header
    [name [unit]] (the name having no [\[]), and out of a column header
    [name/unit] (the unit having no [/] and not ending in [\]]), also when the
    header is a time column. *)
Theorem form_names_and_unit_unit (series_header n u : string) :
  n <> ""%string -> u <> ""%string ->
  PyStr.newline ∉ String.list_ascii_of_string n ->
  PyStr.newline ∉ String.list_ascii_of_string u ->
  (PyText.lbracket ∉ String.list_ascii_of_string n ->
   (Names.form_names_and_unit series_header (n ++ " [" ++ u ++ "]")%string).1.2 = u) /\
  (PyText.slash ∉ String.list_ascii_of_string u ->
   last (String.list_ascii_of_string u) <> Some PyText.rbracket ->
   (Names.form_names_and_unit series_header (n ++ "/" ++ u)%string).1.2 = u).
Proof.
  intros Hn Hu Hnn Hun.
  assert (Hln : String.list_ascii_of_string n <> []) by (destruct n; done).
  assert (Hlu : String.list_ascii_of_string u <> []) by (destruct u; done).
  split.
  - intros Hlb.
    assert (Hz : Names.zilien_unit (n ++ " [" ++ u ++ "]")%string = Some u).
    { unfold Names.zilien_unit. rewrite !list_ascii_app.
      change (String.list_ascii_of_string " [") with [PyText.space; PyText.lbracket].
      change (String.list_ascii_of_string "]") with [PyText.rbracket].
      simpl. rewrite zilien_name_go_app by done. simpl.
      by rewrite String.string_of_list_ascii_of_string. }
    unfold Names.form_names_and_unit.
    destruct (SeriesObjects.is_time_column _) eqn:Ht.
    + unfold SeriesObjects.is_time_column in Ht.
      apply orb_prop in Ht as [Ht|Ht]; apply String.eqb_eq in Ht; rewrite Ht in Hz.
      * vm_compute in Hz. by injection Hz as <-.
      * discriminate.
    + rewrite Hz. destruct (Names.setpoint_or_value _); [done|].
      destruct (Aliases.to_mass _); done.
  - intros Hsl Hlast.
    assert (Hcs : String.list_ascii_of_string (n ++ "/" ++ u)%string
                  = String.list_ascii_of_string n ++ PyText.slash :: String.list_ascii_of_string u).
    { rewrite !list_ascii_app. reflexivity. }
    assert (Hb : Names.biologic_unit (n ++ "/" ++ u)%string = Some u).
    { unfold Names.biologic_unit. rewrite Hcs, biologic_name_go_app by auto. simpl.
      by rewrite String.string_of_list_ascii_of_string. }
    assert (Hz : Names.zilien_unit (n ++ "/" ++ u)%string = None).
    { unfold Names.zilien_unit.
      destruct (Names.zilien_name_go _) as [r|] eqn:Hr; [|done]. exfalso.
      destruct (zilien_name_go_ends _ _ Hr) as [y [Hy|Hy]]; rewrite Hcs in Hy.
      - apply Hlast. rewrite <- (last_snoc PyText.rbracket y), <- Hy.
        rewrite last_app_cons, last_cons.
        destruct (last (String.list_ascii_of_string u)) eqn:E; [done|].
        by apply last_None in E.
      - assert (Hin : PyStr.newline ∈ String.list_ascii_of_string n ++
                        PyText.slash :: String.list_ascii_of_string u).
        { rewrite Hy. apply elem_of_app. right. right. by left. }
        apply elem_of_app in Hin as [Hin|Hin]; [done|].
        apply elem_of_cons in Hin as [Hin|Hin]; [discriminate|done]. }
    unfold Names.form_names_and_unit.
    destruct (SeriesObjects.is_time_column _) eqn:Ht.
    + unfold SeriesObjects.is_time_column in Ht.
      apply orb_prop in Ht as [Ht|Ht]; apply String.eqb_eq in Ht; rewrite Ht in Hz, Hb.
      * discriminate.
      * vm_compute in Hb. by injection Hb as <-.
    + rewrite Hz, Hb. destruct (Names.setpoint_or_value _); [done|].
      destruct (Aliases.to_mass _); done.
Qed.

Lemma form_names_standard (series_header column_header : string) :
  (Names.form_names_and_unit series_header column_header).2 =
  if SeriesObjects.is_time_column column_header then None
  else option_map (fun m => ("M" ++ m)%string) (Aliases.to_mass series_header).
Proof.
  unfold Names.form_names_and_unit.
  destruct (SeriesObjects.is_time_column column_header); [done|].
  destruct (Names.setpoint_or_value series_header) eqn:Hs;
    destruct (Aliases.to_mass series_header) as [m|] eqn:Hm; try done.
  by rewrite (setpoint_or_value_mass _ _ Hm) in Hs.
Qed.

Lemma form_names_mass_name (series_header column_header m : string) :
  Aliases.to_mass series_header = Some m ->
  SeriesObjects.is_time_column column_header = false ->
  (Names.form_names_and_unit series_header column_header).1.1 =
  ("M" ++ m ++ " [" ++ (Names.form_names_and_unit series_header column_header).1.2 ++ "]")%string.
Proof.
  intros Hm Ht. unfold Names.form_names_and_unit. rewrite Ht.
  by rewrite (setpoint_or_value_mass _ _ Hm), Hm.
Qed.

(** X5: a standard name comes only from a mass series header [C<n>M<mass>]:
    it is then [M<mass>] for every column that is not a time column, and the
    series is named [M<mass> [unit]]; time columns get the unit ["s"] and no
    standard name. *)
Theorem form_names_and_unit_standard_name (series_header column_header : string) :
  let '(name, unit, standard_name) := Names.form_names_and_unit series_header column_header in
  (SeriesObjects.is_time_column column_header = true ->
     unit = "s"%string /\ standard_name = None) /\
  (forall k, standard_name = Some k ->
     exists m, Aliases.to_mass series_header = Some m /\ k = ("M" ++ m)%string /\
       name = ("M" ++ m ++ " [" ++ unit ++ "]")%string) /\
  (forall m, Aliases.to_mass series_header = Some m ->
     SeriesObjects.is_time_column column_header = false ->
     standard_name = Some ("M" ++ m)%string).
Proof.
  pose proof (form_names_standard series_header column_header) as Hsn.
  pose proof (form_names_mass_name series_header column_header) as Hname.
  destruct (Names.form_names_and_unit series_header column_header) as [[name unit] sn] eqn:E.
  simpl in Hsn, Hname. split; [|split].
  - intros Ht. rewrite Ht in Hsn. split; [|done].
    unfold Names.form_names_and_unit in E. rewrite Ht in E. by injection E.
  - intros k ->. destruct (SeriesObjects.is_time_column column_header) eqn:Ht; [done|].
    destruct (Aliases.to_mass series_header) as [m|] eqn:Hm; [|done].
    simpl in Hsn. injection Hsn as ->. exists m. split; [done|split; [done|]]. by apply Hname.
  - intros m Hm Ht. by rewrite Ht, Hm in Hsn.
Qed.

(* ------------------------------------------------------------------ *)
(** ** Aliases of a Zilien block and of a file *)

Section PartAliasProofs.
Import Aliases Shapes.

Lemma zilien_aliases_part_fold nus :
  zilien_aliases_part nus = fold_left alias_step nus [].
Proof. reflexivity. Qed.

Lemma alias_fold_no_mass (series_header : string) chs acc :
  to_mass series_header = None ->
  fold_left alias_step (map (Names.form_names_and_unit series_header) chs) acc = acc.
Proof.
  intros Hm. revert acc. induction chs as [|ch chs IH]; intros acc; [done|].
  simpl. pose proof (form_names_standard series_header ch) as Hs.
  rewrite Hm in Hs. destruct (SeriesObjects.is_time_column ch);
  destruct (Names.form_names_and_unit series_header ch) as [[n u] sn]; simpl in Hs; subst sn;
    apply IH.
Qed.

Lemma alias_fold_mass (series_header m : string) chs v :
  to_mass series_header = Some m ->
  fold_left alias_step (map (Names.form_names_and_unit series_header) chs)
    (single ("M" ++ m)%string v)
  = single ("M" ++ m)%string
      (v ++ map (fun ch => (Names.form_names_and_unit series_header ch).1.1)
                (List.filter (fun ch => negb (SeriesObjects.is_time_column ch)) chs)).
Proof.
  intros Hm. revert v. induction chs as [|ch chs IH]; intros v; simpl.
  - by rewrite app_nil_r.
  - pose proof (form_names_standard series_header ch) as Hs. rewrite Hm in Hs.
    destruct (SeriesObjects.is_time_column ch) eqn:Ht; simpl.
    + destruct (Names.form_names_and_unit series_header ch) as [[n u] sn];
        simpl in Hs; subst sn. apply IH.
    + destruct (Names.form_names_and_unit series_header ch) as [[n u] sn] eqn:E;
        simpl in Hs; subst sn. simpl.
      assert (Hstep : od_extend (single ("M" ++ m) v) ("M" ++ m) [n]
                      = single ("M" ++ m) (v ++ [n])).
      { destruct v as [|x v]; simpl; [done|]. by rewrite String.eqb_refl. }
      rewrite Hstep, IH. by rewrite <- app_assoc.
Qed.

Lemma od_extend_keys (d : odict) k v k' :
  k' ∈ map fst (od_extend d k v) -> k' ∈ map fst d \/ k' = k.
Proof.
  induction d as [|[k0 v0] d IH]; simpl.
  - rewrite list_elem_of_singleton. by right.
  - destruct (String.eqb_spec k0 k) as [->|]; simpl.
    + rewrite elem_of_cons. intros [->|H]; left; [by left|by right].
    + rewrite elem_of_cons. intros [->|H]; [left; by left|].
      destruct (IH H); [left; by right|by right].
Qed.

Lemma od_extend_all_keys (d items : odict) k' :
  k' ∈ map fst (od_extend_all d items) -> k' ∈ map fst d \/ k' ∈ map fst items.
Proof.
  revert d. induction items as [|[k v] items IH]; intros d; simpl; [by left|].
  intros H. destruct (IH _ H) as [H'|H'].
  - destruct (od_extend_keys _ _ _ _ H') as [Hx| ->]; [by left|right; by left].
  - right. by right.
Qed.

Lemma od_extend_all_nil (d : odict) : od_extend_all d [] = d.
Proof. reflexivity. Qed.

(** The keys the blocks of [form_series_aliases] can give. *)
Lemma form_series_aliases_keys (cls : meas_cls) (blocks : list (string * list string)) acc k :
  k ∈ map fst (fold_left (fun aliases '(series_header, names_and_units) =>
               if (negb (is_ec cls) &&
                   (String.eqb series_header "pot" || String.eqb series_header BIOLOGIC_SERIES_NAME))%bool
               then aliases
               else if (negb (is_ms cls) && bool_decide (is_Some (to_mass series_header)))%bool
               then aliases
               else if String.eqb series_header BIOLOGIC_SERIES_NAME then aliases
               else od_extend_all aliases (zilien_aliases_part names_and_units))
            (map (fun '(series_header, chs) =>
                    (series_header, map (Names.form_names_and_unit series_header) chs)) blocks)
            acc) ->
  k ∈ map fst acc \/
  (is_ms cls = true /\ exists series_header m, to_mass series_header = Some m /\ k = ("M" ++ m)%string).
Proof.
  revert acc. induction blocks as [|[sh chs] blocks IH]; intros acc; simpl; [by left|].
  intros H. destruct (IH _ H) as [H'|H']; [|by right].
  destruct (negb (is_ec cls) && _)%bool; [by left|].
  destruct (negb (is_ms cls) && _)%bool eqn:Hms; [by left|].
  destruct (String.eqb sh BIOLOGIC_SERIES_NAME); [by left|].
  apply od_extend_all_keys in H' as [H'|H']; [by left|].
  rewrite zilien_aliases_part_fold in H'.
  destruct (to_mass sh) as [m|] eqn:Hm.
  - right. split.
    + destruct (is_ms cls); [done|]. rewrite bool_decide_true in Hms; [discriminate|done].
    + exists sh, m. split; [done|].
      change ([] : odict) with (single ("M" ++ m)%string []) in H'.
      rewrite alias_fold_mass in H' by done. simpl in H'. unfold single in H'.
      destruct (map (fun ch => (Names.form_names_and_unit sh ch).1.1) _); simpl in H'; [by apply elem_of_nil in H'|].
      by apply list_elem_of_singleton in H'.
  - rewrite alias_fold_no_mass in H' by done. by apply elem_of_nil in H'.
Qed.

Lemma form_series_aliases_ec (blocks : list (string * list string)) acc :
  fold_left (fun aliases '(series_header, names_and_units) =>
               if (negb (is_ec ECMeasurement) &&
                   (String.eqb series_header "pot" || String.eqb series_header BIOLOGIC_SERIES_NAME))%bool
               then aliases
               else if (negb (is_ms ECMeasurement) && bool_decide (is_Some (to_mass series_header)))%bool
               then aliases
               else if String.eqb series_header BIOLOGIC_SERIES_NAME then aliases
               else od_extend_all aliases (zilien_aliases_part names_and_units))
            (map (fun '(series_header, chs) =>
                    (series_header, map (Names.form_names_and_unit series_header) chs)) blocks)
            acc = acc.
Proof.
  revert acc. induction blocks as [|[sh chs] blocks IH]; intros acc; simpl; [done|].
  destruct (to_mass sh) as [m|] eqn:Hm; simpl.
  - apply IH.
  - destruct (String.eqb sh BIOLOGIC_SERIES_NAME); [apply IH|].
    rewrite zilien_aliases_part_fold, alias_fold_no_mass by done. apply IH.
Qed.

End PartAliasProofs.

(** X6: the aliases of a Zilien block ([_zilien_dataset_part]): a block whose
    series header is not a mass header [C<n>M<mass>] gives none; a mass block
    gives the one standard name [M<mass>], for the series of its non-time
    columns in column order, each named [M<mass> [unit]]. A missing
    [<header>_<header>_count] item raises [KeyError]. *)
Theorem zilien_dataset_part_aliases {float : Type}
    (metadata : ReadMetadata.meta_dict (float := float)) (series_header : string)
    (column_headers : list string) (data_columns : list (list (option Z))) :
  (ReadMetadata.dict_get metadata (series_header ++ "_" ++ series_header ++ "_count")%string = None ->
   ZilienPart.zilien_dataset_part metadata series_header column_headers data_columns = Err KeyError) /\
  (forall column_series aliases,
     ZilienPart.zilien_dataset_part metadata series_header column_headers data_columns
       = Ok (column_series, aliases) ->
     aliases =
       match Aliases.to_mass series_header with
       | None => []
       | Some m =>
           match List.filter (fun ch => negb (SeriesObjects.is_time_column ch)) column_headers with
           | [] => []
           | value_headers =>
               [(("M" ++ m)%string,
                 map (fun ch => ("M" ++ m ++ " [" ++
                                 (Names.form_names_and_unit series_header ch).1.2 ++ "]")%string)
                     value_headers)]
           end
       end).
Proof.
  unfold ZilienPart.zilien_dataset_part. split.
  - intros H. by rewrite H.
  - intros cs al.
    destruct (ReadMetadata.dict_get _ _); [|discriminate].
    destruct (ZilienPart.slice_rows _ _); [|discriminate].
    destruct (SeriesObjects.create_series_objects _ _ _); [|discriminate].
    intros [= _ <-]. rewrite zilien_aliases_part_fold.
    destruct (Aliases.to_mass series_header) as [mass|] eqn:Hm.
    + change ([] : Aliases.odict) with (Shapes.single ("M" ++ mass)%string []).
      rewrite alias_fold_mass by done. simpl.
      assert (Hnames : map (fun ch => (Names.form_names_and_unit series_header ch).1.1)
                         (List.filter (fun ch => negb (SeriesObjects.is_time_column ch)) column_headers)
                       = map (fun ch => ("M" ++ mass ++ " [" ++
                                 (Names.form_names_and_unit series_header ch).1.2 ++ "]")%string)
                         (List.filter (fun ch => negb (SeriesObjects.is_time_column ch)) column_headers)).
      { apply map_ext_in. intros ch Hch. apply filter_In in Hch as [_ Hch].
        apply negb_true_iff in Hch. by apply form_names_mass_name. }
      rewrite Hnames. by destruct (List.filter _ _).
    + by apply alias_fold_no_mass.
Qed.

(** X7: the alias table of a whole file depends on the class it is read as:
    read as an [ECMeasurement] it is exactly [ZILIEN_EC_ALIASES], whatever
    the header rows; for any class, every standard name in it is a default
    name of [ZILIEN_ALIASES[cls]] or, when the class is an MS class, a mass
    name [M<mass>] (non-empty digits) of a mass series header. *)
Theorem file_aliases_by_class (series_headers column_headers : list string) :
  ZilienPart.file_aliases Aliases.ECMeasurement series_headers column_headers
    = Aliases.ZILIEN_EC_ALIASES /\
  (forall cls k v,
     (k, v) ∈ ZilienPart.file_aliases cls series_headers column_headers ->
     k ∈ map fst (Aliases.ZILIEN_ALIASES cls) \/
     (Aliases.is_ms cls = true /\
      exists m, k = ("M" ++ m)%string /\ m <> ""%string /\
                forallb Aliases.is_digit (String.list_ascii_of_string m) = true)).
Proof.
  unfold ZilienPart.file_aliases, Aliases.read_aliases, Aliases.form_series_aliases. split.
  - rewrite form_series_aliases_ec. reflexivity.
  - intros cls k v Hin.
    pose proof (proj2 (list_elem_of_fmap fst _ k) (ex_intro _ (k, v) (conj eq_refl Hin))) as Hk.
    apply od_extend_all_keys in Hk as [Hk|Hk]; [|by left].
    apply form_series_aliases_keys in Hk as [Hk|[Hms [sh [m [Hm ->]]]]].
    { by apply elem_of_nil in Hk. }
    right. split; [done|]. exists m. split; [done|].
    by destruct (to_mass_result _ _ Hm) as (? & ? & _).
Qed.

(* ------------------------------------------------------------------ *)
(** ** Reading the metadata block *)

Section ReadMetadataProofs.
Context {float : Type}.
Variable py_int : string -> result Z.
Variable py_float : string -> result float.

Lemma parse_metadata_line_empty :
  Metadata.parse_metadata_line py_int py_float "" = Err ValueError.
Proof. reflexivity. Qed.

Lemma read_items_ok n lines (md md' : ReadMetadata.meta_dict (float := float)) rest :
  ReadMetadata.read_items py_int py_float n lines md = Ok (md', rest) ->
  (n <= length lines)%nat /\ rest = drop n lines.
Proof.
  revert lines md. induction n as [|n IH]; intros lines md; simpl.
  - intros [= _ <-]. split; [lia|done].
  - destruct lines as [|l lines]; simpl.
    + cbn. discriminate.
    + destruct (Metadata.parse_metadata_line py_int py_float l) as [[key value]|e]; [|discriminate].
      intros H. destruct (IH _ _ H). split; [lia|done].
Qed.

Lemma dict_get_set (d : ReadMetadata.meta_dict (float := float)) k v :
  ReadMetadata.dict_get (ReadMetadata.dict_set d k v) k = Some v.
Proof.
  induction d as [|[k' v'] d IH]; simpl; [by rewrite String.eqb_refl|].
  destruct (String.eqb_spec k' k) as [->|]; simpl.
  - by rewrite String.eqb_refl.
  - by apply String.eqb_neq in n as ->.
Qed.

Lemma readline_drop k (lines : list string) :
  ReadMetadata.readline (drop k lines) = (nth k lines ""%string, drop (S k) lines).
Proof.
  revert lines. induction k as [|k IH]; intros [|l lines]; simpl; try done.
Qed.

End ReadMetadataProofs.

(** X8: what [_read_metadata] reads. When it returns, the metadata block took
    [k] lines with [4 <= k <= len(lines)], [k] being [max(4, n)] for the
    [num_header_lines] value [n] of the first four lines; the series and
    column headers are lines [k] and [k + 1], stripped of their newline and
    split on tabs (the empty string past the end of the file); the reading
    goes on at line [k + 2]; and the metadata has a [file_format_version]. *)
Theorem read_metadata_layout {float : Type} (py_int : string -> result Z)
    (py_float : string -> result float) (lines : list string)
    metadata series_headers column_headers rest :
  ReadMetadata.read_metadata py_int py_float lines
    = Ok (metadata, series_headers, column_headers, rest) ->
  exists k : nat,
    (4 <= k <= length lines)%nat /\
    (forall md4 rest4 n,
       ReadMetadata.read_items py_int py_float 4 lines [] = Ok (md4, rest4) ->
       ReadMetadata.dict_get md4 "num_header_lines" = Some (Metadata.MInt n) ->
       k = Z.to_nat (Z.max 4 n)) /\
    series_headers = PyStr.split PyStr.tab (PyStr.strip PyStr.newline (nth k lines ""%string)) /\
    column_headers = PyStr.split PyStr.tab (PyStr.strip PyStr.newline (nth (S k) lines ""%string)) /\
    rest = drop (S (S k)) lines /\
    ReadMetadata.dict_get metadata "file_format_version" <> None.
Proof.
  unfold ReadMetadata.read_metadata.
  destruct (ReadMetadata.read_items py_int py_float _ lines []) as [[md4 r4]|e] eqn:H4;
    [|discriminate].
  destruct (read_items_ok _ _ _ _ _ _ _ H4) as [Hl4 ->].
  destruct (ReadMetadata.dict_get md4 "num_header_lines") as [v|] eqn:Hv; [|discriminate].
  destruct (ReadMetadata.remaining_passes v) as [p|e] eqn:Hp; [|discriminate].
  destruct (ReadMetadata.read_items py_int py_float p _ md4) as [[md r]|e] eqn:Hr;
    [|discriminate].
  destruct (read_items_ok _ _ _ _ _ _ _ Hr) as [Hlp ->].
  rewrite drop_drop, (readline_drop (_ + p)), readline_drop.
  intros [= <- <- <- <-].
  exists (ReadMetadata.fixed_metadata_lines_amount + p)%nat.
  rewrite length_drop in Hlp. unfold ReadMetadata.fixed_metadata_lines_amount in *.
  split; [lia|]. split; [|split; [done|split; [done|split; [done|]]]].
  - intros md4' r4' n Hmd4 Hn. injection Hmd4 as <- <-.
    rewrite Hv in Hn. injection Hn as ->. simpl in Hp. injection Hp as <-.
    unfold ReadMetadata.fixed_metadata_lines_amount.
    destruct (Z.le_ge_cases 4 n).
    + rewrite Z.max_r by lia. apply Nat2Z.inj. rewrite Nat2Z.inj_add, !Z2Nat.id by lia. lia.
    + rewrite Z.max_l, (Z2Nat.nonpos (n - _)) by lia. done.
  - destruct (ReadMetadata.dict_get md "file_format_version") eqn:Hf.
    + by rewrite Hf.
    + by rewrite dict_get_set.
Qed.

(** X9: the ways [_read_metadata] fails: a file of fewer than four lines
    raises (the fixed lines cannot be unpacked); when the first four lines
    have no [num_header_lines] item it raises [KeyError]; when that item is
    a [double] or a [string] it raises [TypeError]. *)
Theorem read_metadata_errors {float : Type} (py_int : string -> result Z)
    (py_float : string -> result float) (lines : list string) :
  ((length lines < 4)%nat ->
   exists e, ReadMetadata.read_metadata py_int py_float lines = Err e) /\
  (forall md4 rest4,
     ReadMetadata.read_items py_int py_float 4 lines [] = Ok (md4, rest4) ->
     (ReadMetadata.dict_get md4 "num_header_lines" = None ->
      ReadMetadata.read_metadata py_int py_float lines = Err KeyError) /\
     (forall f, ReadMetadata.dict_get md4 "num_header_lines" = Some (Metadata.MFloat f) ->
      ReadMetadata.read_metadata py_int py_float lines = Err TypeError) /\
     (forall t, ReadMetadata.dict_get md4 "num_header_lines" = Some (Metadata.MString t) ->
      ReadMetadata.read_metadata py_int py_float lines = Err TypeError)).
Proof.
  unfold ReadMetadata.read_metadata. split.
  - intros Hlt. destruct (ReadMetadata.read_items py_int py_float _ lines []) as [[md4 r4]|e] eqn:H4.
    + destruct (read_items_ok _ _ _ _ _ _ _ H4) as [Hl _].
      unfold ReadMetadata.fixed_metadata_lines_amount in Hl. lia.
    + by exists e.
  - intros md4 r4 H4. unfold ReadMetadata.fixed_metadata_lines_amount. rewrite H4.
    split; [intros ->; done|].
    split; intros ? ->; done.
Qed.

(* ------------------------------------------------------------------ *)
(** ** The time stamp of a Zilien spectrum *)

Section SpectrumStampProofs.
Import Shapes.
Context {float : Type}.
Variable float_match : string -> option string.
Variable py_float : string -> result float.

Lemma scan_tstamp_no_marker (ls : list string) acc :
  (forall l, l ∈ ls -> marker_line l = false) ->
  SpectrumStamp.scan_tstamp float_match py_float ls acc = Ok acc.
Proof.
  revert acc. induction ls as [|l ls IH]; intros acc H; simpl; [done|].
  pose proof (H l (list_elem_of_here _ _)) as Hl. unfold marker_line in Hl. rewrite Hl.
  apply IH. intros l' Hl'. apply H. by apply list_elem_of_further.
Qed.

Lemma scan_tstamp_some (ls : list string) acc t :
  SpectrumStamp.scan_tstamp float_match py_float ls acc = Ok (Some t) ->
  (acc = Some t /\ forall l, l ∈ ls -> marker_line l = false) \/
  exists i l g, ls !! i = Some l /\ marker_line l = true /\ float_match l = Some g /\
    py_float g = Ok t /\
    forall j l', (i < j)%nat -> ls !! j = Some l' -> marker_line l' = false.
Proof.
  revert acc. induction ls as [|l ls IH]; intros acc; simpl.
  - intros [= ->]. left. split; [done|]. intros l Hl. by apply elem_of_nil in Hl.
  - destruct (PyText.contains SpectrumStamp.MASS_SCAN_MARKER l) eqn:Hm.
    + destruct (float_match l) as [g|] eqn:Hg; [|discriminate].
      destruct (py_float g) as [f|e] eqn:Hf; [|discriminate].
      intros H. right. destruct (IH _ H) as [[[= ->] Hno]|(i & l' & g' & Hi & Hrest)].
      * exists 0%nat, l, g. do 4 (split; [done|]).
        intros [|j] l'' Hj Hl''; [lia|]. apply Hno. simpl in Hl''.
        by eapply list_elem_of_lookup_2.
      * exists (S i), l', g'. split; [done|].
        destruct Hrest as (? & ? & ? & Hafter). do 3 (split; [done|]).
        intros [|j] l'' Hj Hl''; [lia|]. apply (Hafter j); [lia|done].
    + intros H. destruct (IH _ H) as [[-> Hno]|(i & l' & g' & Hi & Hrest)].
      * left. split; [done|]. intros l' Hl'. apply elem_of_cons in Hl' as [->|Hl']; [done|].
        by apply Hno.
      * right. exists (S i), l', g'. split; [done|].
        destruct Hrest as (? & ? & ? & Hafter). do 3 (split; [done|]).
        intros [|j] l'' Hj Hl''; [lia|]. apply (Hafter j); [lia|done].
Qed.

End SpectrumStampProofs.

(** X10: the time stamp of [ZilienSpectrumReader.read] comes from the last of
    the first ten lines of the file that holds ["Mass scan started at [s]"]
    (the float found in it); lines after the tenth are not read; a read that
    returns has found both a mass column and ["Current [A]"]. When both a mass
    column and ["Current [A]"] are there but none of the first ten lines
    holds the marker, [tstamp] is never assigned and the read stops with
    [UnboundLocalError]. *)
Theorem spectrum_read_tstamp {float : Type} (float_match : string -> option string)
    (py_float : string -> result float) (df_columns lines : list string) :
  ((forall l, l ∈ take 10 lines -> Shapes.marker_line l = false) ->
   forall x_name y_name,
   SpectrumReader.spectrum_columns df_columns = Ok (x_name, y_name) ->
   SpectrumStamp.spectrum_read float_match py_float df_columns lines
     = inl SpectrumStamp.UnboundLocalError) /\
  (forall x_name tstamp,
   SpectrumStamp.spectrum_read float_match py_float df_columns lines = inr (x_name, tstamp) ->
   SpectrumReader.spectrum_columns df_columns = Ok (x_name, "Current [A]"%string) /\
   exists i l g, (i < 10)%nat /\ lines !! i = Some l /\ Shapes.marker_line l = true /\
     float_match l = Some g /\ py_float g = Ok tstamp /\
     forall j l', (i < j < 10)%nat -> lines !! j = Some l' -> Shapes.marker_line l' = false).
Proof.
  unfold SpectrumStamp.spectrum_read. split.
  - intros Hno x y Hc. rewrite Hc, scan_tstamp_no_marker by done. reflexivity.
  - intros x t.
    destruct (SpectrumReader.spectrum_columns df_columns) as [[x' y']|e] eqn:Hc;
      [|discriminate].
    destruct (SpectrumStamp.scan_tstamp float_match py_float (take 10 lines) None)
      as [[t'|]|e] eqn:Hs; try discriminate.
    intros [= <- <-].
    split.
    { unfold SpectrumReader.spectrum_columns in Hc.
      destruct (SpectrumReader.find_column _ _); [|discriminate].
      case_bool_decide; [|discriminate]. by injection Hc as _ <-. }
    destruct (scan_tstamp_some _ _ _ _ _ Hs) as [[[=] _]|(i & l & g & Hi & Hl & Hg & Hf & Hafter)].
    assert (Hi10 : (i < 10)%nat).
    { apply lookup_lt_Some in Hi. rewrite length_take in Hi. lia. }
    exists i, l, g. split; [done|]. rewrite lookup_take_lt in Hi by lia.
    do 4 (split; [done|]).
    intros j l' Hj Hl'. apply (Hafter j); [lia|]. rewrite lookup_take_lt by lia. done.
Qed.

(* ------------------------------------------------------------------ *)
(** ** The series objects of a Zilien block *)

Section CreateProofs.
Import Shapes.
Variable names_and_units : list (string * string * option string).
Variable data_columns : list (list (option Z)).

Lemma create_go_output (n : nat) (column_headers : list string)
    (time_series : option SeriesObjects.series) (l : list SeriesObjects.series) :
  SeriesObjects.create_go names_and_units data_columns n column_headers time_series = Ok l ->
  linked time_series l /\
  map series_data l = omap (fun i => data_columns !! i) (kept_columns data_columns n column_headers) /\
  map series_name l = omap (fun i => option_map (fun nu => nu.1.1) (names_and_units !! i))
                           (kept_columns data_columns n column_headers).
Proof.
  revert n time_series l.
  induction column_headers as [|h hs IH]; intros n ts l; simpl.
  - intros [= <-]. done.
  - destruct (SeriesObjects.is_meta_column h); [apply IH|].
    destruct (data_columns !! n) as [d|] eqn:Hd; [|discriminate].
    destruct (SeriesObjects.all_nan d); [apply IH|].
    destruct (names_and_units !! n) as [[[sn u] std]|] eqn:Hn; [|discriminate].
    simpl. rewrite Hd, Hn. simpl.
    destruct (SeriesObjects.is_time_column h).
    + destruct (SeriesObjects.create_go _ _ (S n) hs _) as [l'|e] eqn:Hr; [|discriminate].
      intros [= <-]. destruct (IH _ _ _ Hr) as (Hlk & Hdata & Hname).
      simpl. by rewrite Hdata, Hname.
    + destruct ts as [t|]; [|discriminate].
      destruct (SeriesObjects.create_go _ _ (S n) hs _) as [l'|e] eqn:Hr; [|discriminate].
      intros [= <-]. destruct (IH _ _ _ Hr) as (Hlk & Hdata & Hname).
      simpl. by rewrite Hdata, Hname.
Qed.

End CreateProofs.

(** X11: what [_create_series_objects] builds: one series per column that is
    neither [experiment_number]/[technique_number] nor all NaN, in column
    order, with that column's data and its name from [names_and_units]; and
    each value series is linked to the time series of the last time column
    before it, so the output never starts with a value series. *)
Theorem create_series_objects_output (column_headers : list string)
    (names_and_units : list (string * string * option string))
    (data_columns : list (list (option Z))) (l : list SeriesObjects.series) :
  SeriesObjects.create_series_objects column_headers names_and_units data_columns = Ok l ->
  Shapes.linked None l /\
  map Shapes.series_data l
    = omap (fun i => data_columns !! i) (Shapes.kept_columns data_columns 0 column_headers) /\
  map Shapes.series_name l
    = omap (fun i => option_map (fun nu => nu.1.1) (names_and_units !! i))
           (Shapes.kept_columns data_columns 0 column_headers) /\
  (forall n u d ts rest, l <> SeriesObjects.ValueSeries n u d ts :: rest).
Proof.
  unfold SeriesObjects.create_series_objects. intros H.
  destruct (create_go_output _ _ _ _ _ _ H) as (Hlk & Hdata & Hname).
  do 3 (split; [done|]).
  intros n u d ts rest ->. simpl in Hlk. by destruct Hlk as [[=] _].
Qed.

(* ------------------------------------------------------------------ *)
(** ** Steps of the cycle counter *)

Section CycleStepProofs.
Import Cycle Shapes.

Lemma first_true_none {A : Type} (p : A -> bool) xs :
  (forall x, x ∈ xs -> p x = false) -> first_true p xs = None.
Proof.
  induction xs as [|x xs IH]; intros H; simpl; [done|].
  rewrite (H x (list_elem_of_here _ _)), IH; [done|].
  intros y Hy. apply H. by apply list_elem_of_further.
Qed.

Lemma cycle_loop_steps (v : list Z) sp Np N f n c vec p :
  (p <= n)%nat ->
  (forall k x, (p <= k)%nat -> vec !! k = Some x -> x = c) ->
  cycle_steps v (fun z => sp < z) vec ->
  cycle_steps v (fun z => sp < z) (cycle_loop f v sp Np N n c vec).
Proof.
  revert n c vec p. induction f as [|f IH]; intros n c vec p Hp Hsuf Hst; simpl; [done|].
  destruct (Nat.ltb n N); [|done].
  destruct (first_true _ (drop n v)) as [i|] eqn:Hi; [|done].
  destruct (first_true _ (drop (n + i + Np) v)) as [j|] eqn:Hj; [|done].
  pose proof (cycle_step_progress v sp Np n i j Hi Hj) as Hprog.
  destruct (first_true_spec _ _ _ Hj) as [z [Hz Hlt]].
  rewrite lookup_drop in Hz. apply Z.ltb_lt in Hlt.
  set (m := (n + i + Np + j)%nat) in *.
  apply (IH _ _ _ m); [lia| |].
  - intros k x Hk Hx. rewrite set_from_lookup in Hx.
    case_decide; [lia|]. destruct (vec !! k); simpl in Hx; [|discriminate]. by injection Hx.
  - intros k x y Hx Hy. rewrite set_from_lookup in Hx, Hy.
    destruct (decide (k < m)%nat); destruct (decide (S k < m)%nat).
    + by apply (Hst k).
    + assert (Hk : S k = m) by lia.
      destruct (vec !! S k) eqn:?; simpl in Hy; [|discriminate]. injection Hy as <-.
      rewrite (Hsuf k x) by (lia || done). right. split; [done|].
      exists z. by rewrite Hk.
    + lia.
    + destruct (vec !! k); simpl in Hx; [|discriminate].
      destruct (vec !! S k); simpl in Hy; [|discriminate].
      injection Hx as <-. injection Hy as <-. by left.
Qed.

End CycleStepProofs.

(** X12: [redefine_cycle] with a given [start_potential] counts up one at a
    time: two consecutive cycle numbers are equal or the second is one more,
    and where it goes up the potential is past the start potential (above it
    when [redox], below it otherwise). When no potential is on the other side
    of the start potential (below it when [redox], above it otherwise), every
    cycle number is 0. *)
Theorem redefine_cycle_steps (t v : list Z) (start_potential : Z) (redox : bool)
    (N_points : nat) :
  let cycle := Cycle.redefine_cycle t v start_potential redox N_points in
  Shapes.cycle_steps v
    (fun z => if redox then start_potential < z else z < start_potential) cycle /\
  ((forall z, z ∈ v -> if redox then start_potential <= z else z <= start_potential) ->
   cycle = replicate (length t) 0%nat).
Proof.
  unfold Cycle.redefine_cycle. split.
  - assert (H0 : forall (vv : list Z) sp,
               Shapes.cycle_steps vv (fun z => sp < z)
                 (Cycle.cycle_loop (S (length t)) vv sp N_points (length t) 0 0
                    (replicate (length t) 0%nat))).
    { intros vv sp. apply (cycle_loop_steps _ _ _ _ _ _ _ _ 0); [lia| |].
      - intros k x _ Hx. by apply lookup_replicate_1 in Hx as [-> _].
      - intros k x y Hx Hy. apply lookup_replicate_1 in Hx as [-> _].
        apply lookup_replicate_1 in Hy as [-> _]. by left. }
    destruct redox.
    + apply H0.
    + intros k x y Hx Hy. destruct (H0 (map Z.opp v) (- start_potential) k x y Hx Hy)
        as [->|[-> [z [Hz Hlt]]]]; [by left|].
      right. split; [done|]. rewrite list_lookup_fmap in Hz.
      destruct (v !! S k) as [z'|]; simpl in Hz; [|discriminate].
      injection Hz as <-. exists z'. split; [done|]. lia.
  - intros Hall. destruct redox; cbn [Cycle.cycle_loop];
      destruct (Nat.ltb 0 (length t)); try done; rewrite drop_0, first_true_none; try done.
    + intros z Hz. apply Z.ltb_ge. by apply Hall.
    + intros z' Hz'. apply list_elem_of_fmap in Hz' as [z [-> Hz]].
      apply Z.ltb_ge. pose proof (Hall z Hz). lia.
Qed.

(* ------------------------------------------------------------------ *)
(** ** Shifting the cycle numbers to start at 0 *)

Lemma fold_min_spec (rest : list Z) d :
  let m := fold_left Z.min rest d in
  (m = d \/ m ∈ rest) /\ m <= d /\ (forall x, x ∈ rest -> m <= x).
Proof.
  revert d. induction rest as [|x rest IH]; intros d; simpl.
  - split; [by left|]. split; [lia|]. intros x Hx. by apply elem_of_nil in Hx.
  - destruct (IH (Z.min d x)) as (Hin & Hle & Hall).
    split; [|split].
    + destruct Hin as [->|Hin]; [|right; by right].
      destruct (Z.min_spec d x) as [[_ ->]|[_ ->]]; [by left|right; by left].
    + lia.
    + intros y Hy. apply elem_of_cons in Hy as [->|Hy]; [lia|]. by apply Hall.
Qed.

(** X13: without a [start_potential], [redefine_cycle] shifts the old cycle
    numbers by their minimum: it raises [ValueError] when there are none;
    otherwise the new numbers are the old ones minus their smallest value,
    so they are as many as the old ones, all at least 0, and 0 is among
    them. *)
Theorem shift_cycle_spec (old : list Z) :
  CVSelect.shift_cycle [] = Err ValueError /\
  (forall new, CVSelect.shift_cycle old = Ok new ->
   (exists m, m ∈ old /\ (forall x, x ∈ old -> m <= x) /\ new = map (fun x => x - m) old) /\
   length new = length old /\ (forall x, x ∈ new -> 0 <= x) /\ 0 ∈ new).
Proof.
  split; [done|]. intros new. destruct old as [|d rest]; [discriminate|].
  intros Hs. assert (Hnew : new = map (fun x => x - fold_left Z.min rest d) (d :: rest))
    by (by injection Hs). rewrite Hnew. clear Hs Hnew.
  destruct (fold_min_spec rest d) as (Hin & Hle & Hall).
  set (m := fold_left Z.min rest d) in *.
  assert (Hmin : forall x, x ∈ d :: rest -> m <= x).
  { intros x Hx. apply elem_of_cons in Hx as [->|Hx]; [done|]. by apply Hall. }
  assert (Hmem : m ∈ d :: rest).
  { destruct Hin as [->|Hin]; [by left|by right]. }
  split; [by exists m|]. split; [by rewrite length_map|]. split.
  - intros y Hy. apply list_elem_of_fmap in Hy as [x [-> Hx]]. pose proof (Hmin x Hx). lia.
  - apply list_elem_of_fmap. exists m. split; [lia|done].
Qed.

(* ------------------------------------------------------------------ *)
(** ** Indexing a cyclic voltammogram *)

Lemma all_ints_spec (l : list CVSelect.pyval) :
  match CVSelect.all_ints l with
  | Some zs => l = map CVSelect.PInt zs
  | None => exists v, v ∈ l /\ CVSelect.int_of v = None
  end.
Proof.
  induction l as [|v l IH]; simpl; [done|].
  destruct (CVSelect.int_of v) as [z|] eqn:Hv.
  - destruct (CVSelect.all_ints l) as [zs|].
    + destruct v; try discriminate. simpl in Hv. injection Hv as ->. by rewrite IH.
    + destruct IH as [w [Hw Hw']]. exists w. split; [by right|done].
  - exists v. split; [by left|done].
Qed.

Lemma all_ints_map (zs : list Z) : CVSelect.all_ints (map CVSelect.PInt zs) = Some zs.
Proof. induction zs as [|z zs IH]; simpl; [done|]. by rewrite IH. Qed.

(** X14: how [CyclicVoltammagram.__getitem__] treats its key: a list of
    [int]s selects those cycles; a list holding anything that is not of
    type [int] (a [bool] included) raises [AttributeError]; a slice with a
    missing start or stop raises [TypeError] (from [range]), a zero step
    [ValueError], and a slice [a:b] with no step selects the cycles
    [a, a+1, ..., b-1]. *)
Theorem getitem_keys (l : list CVSelect.pyval) (start stop step : option Z) (a b : Z) :
  (forall zs, l = map CVSelect.PInt zs ->
   CVSelect.getitem (CVSelect.KList l) = Ok (CVSelect.SelectList zs)) /\
  ((exists v, v ∈ l /\ CVSelect.int_of v = None) ->
   CVSelect.getitem (CVSelect.KList l) = Err AttributeError) /\
  (start = None \/ stop = None ->
   CVSelect.getitem (CVSelect.KSlice start stop step) = Err TypeError) /\
  CVSelect.getitem (CVSelect.KSlice (Some a) (Some b) (Some 0)) = Err ValueError /\
  CVSelect.getitem (CVSelect.KSlice (Some a) (Some b) None)
    = Ok (CVSelect.SelectList (map (fun i => a + Z.of_nat i) (seq 0 (Z.to_nat (b - a))))).
Proof.
  split; [|split; [|split; [|split]]].
  - intros zs ->. simpl. by rewrite all_ints_map.
  - intros (v & Hv & Hn). simpl. pose proof (all_ints_spec l) as Hs.
    destruct (CVSelect.all_ints l) as [zs|]; [|done].
    subst l. apply list_elem_of_fmap in Hv as [z [-> _]]. discriminate.
  - intros [->| ->]; [done|]. by destruct start.
  - done.
  - simpl. rewrite all_ints_map. do 2 f_equal.
    replace (CVSelect.range_length a b 1) with (Z.to_nat (b - a)).
    + apply map_ext. intros i. lia.
    + unfold CVSelect.range_length. simpl. destruct (Z.leb_spec b a).
      * rewrite Z2Nat.nonpos by lia. done.
      * f_equal. replace (b - a + 1 - 1) with (b - a) by lia. symmetry. apply Z.div_1_r.
Qed.

Lemma ceil_div_bound (D p : Z) (i : nat) :
  0 < p -> 0 < D ->
  ((i < Z.to_nat ((D + p - 1) / p))%nat <-> Z.of_nat i * p < D).
Proof.
  intros Hp HD.
  assert (Hq : 0 <= (D + p - 1) / p) by (apply Z.div_pos; lia).
  rewrite Nat2Z.inj_lt, Z2Nat.id by done. split.
  - intros Hi. pose proof (Z.mul_div_le (D + p - 1) p Hp). nia.
  - intros Hi. assert (Hle : Z.of_nat i + 1 <= (D + p - 1) / p).
    { apply Z.div_le_lower_bound; [done|]. nia. }
    lia.
Qed.

Lemma range_members (a b s : Z) (z : Z) :
  s <> 0 ->
  z ∈ map (fun i => a + Z.of_nat i * s) (seq 0 (CVSelect.range_length a b s)) <->
  (if 0 <? s then a <= z < b else b < z <= a) /\ (z - a) mod s = 0.
Proof.
  intros Hs. rewrite list_elem_of_fmap. unfold CVSelect.range_length.
  destruct (Z.ltb_spec 0 s) as [Hpos|Hneg].
  - destruct (Z.leb_spec b a) as [Hba|Hab].
    + simpl. split; [intros [i [_ Hi]]; by apply elem_of_nil in Hi|].
      intros [Hz _]. lia.
    + split.
      * intros [i [-> Hi]]. apply elem_of_seq in Hi as [_ Hi]. simpl in Hi.
        apply ceil_div_bound in Hi; [|lia|lia].
        split; [nia|]. replace (a + Z.of_nat i * s - a) with (Z.of_nat i * s) by lia.
        apply Z.mod_mul. lia.
      * intros [Hz Hm]. apply Z.mod_divide in Hm as [q Hq]; [|lia].
        assert (0 <= q) by nia.
        exists (Z.to_nat q). rewrite Z2Nat.id by done. split; [lia|].
        apply elem_of_seq. split; [lia|]. simpl.
        apply ceil_div_bound; [lia|lia|]. rewrite Z2Nat.id by done. nia.
  - destruct (Z.leb_spec a b) as [Hab|Hba].
    + simpl. split; [intros [i [_ Hi]]; by apply elem_of_nil in Hi|].
      intros [Hz _]. lia.
    + replace (a - b - s - 1) with ((a - b) + (- s) - 1) by lia.
      split.
      * intros [i [-> Hi]]. apply elem_of_seq in Hi as [_ Hi]. simpl in Hi.
        apply ceil_div_bound in Hi; [|lia|lia].
        split; [nia|]. replace (a + Z.of_nat i * s - a) with (Z.of_nat i * s) by lia.
        apply Z.mod_mul. lia.
      * intros [Hz Hm]. apply Z.mod_divide in Hm as [q Hq]; [|lia].
        assert (0 <= q) by nia.
        exists (Z.to_nat q). rewrite Z2Nat.id by done. split; [lia|].
        apply elem_of_seq. split; [lia|]. simpl.
        apply ceil_div_bound; [lia|lia|]. rewrite Z2Nat.id by done. nia.
Qed.

(** X15: a slice [a:b:s] with a non-zero step selects exactly the cycles
    [range(a, b, s)] holds: the [z] between [a] (included) and [b]
    (excluded), going up when [s > 0] and down when [s < 0], with [z - a] a
    multiple of [s]. *)
Theorem getitem_slice_members (a b s : Z) (Hs : s <> 0) :
  exists zs, CVSelect.getitem (CVSelect.KSlice (Some a) (Some b) (Some s))
               = Ok (CVSelect.SelectList zs) /\
    forall z, z ∈ zs <-> (if 0 <? s then a <= z < b else b < z <= a) /\ (z - a) mod s = 0.
Proof.
  eexists. split.
  - simpl. apply Z.eqb_neq in Hs. rewrite Hs. simpl. by rewrite all_ints_map.
  - intros z. by apply range_members.
Qed.

(* ------------------------------------------------------------------ *)
(** ** Names of the series of a Zilien tmp file *)

Section TmpNameProofs.
Import PyText TmpNames.

Lemma span_app_all {A : Type} (p : A -> bool) (xs ys : list A) :
  forallb p xs = true -> span p (xs ++ ys) = (xs ++ (span p ys).1, (span p ys).2).
Proof.
  induction xs as [|x xs IH]; simpl; [by destruct (span p ys)|].
  intros [Hx Hxs]%andb_prop. rewrite Hx, IH by done. done.
Qed.

Lemma column_search_skip (xs ys : list Ascii.ascii) :
  forallb (fun c => negb (Ascii.eqb c dot)) xs = true ->
  column_search (xs ++ ys) = column_search ys.
Proof.
  induction xs as [|x xs IH]; simpl; [done|].
  intros [Hx Hxs]%andb_prop. apply negb_true_iff in Hx. rewrite Hx. by apply IH.
Qed.

Lemma mass_search_skip (xs ys : list Ascii.ascii) :
  forallb (fun c => negb (Ascii.eqb c Aliases.char_M)) xs = true ->
  mass_search (xs ++ ys) = mass_search ys.
Proof.
  induction xs as [|x xs IH]; simpl; [done|].
  intros [Hx Hxs]%andb_prop. apply negb_true_iff in Hx. rewrite Hx. by apply IH.
Qed.

Lemma column_search_file (ts col ext : list Ascii.ascii) :
  forallb (fun c => negb (Ascii.eqb c dot)) ts = true ->
  col <> [] -> forallb (fun c => negb (Ascii.eqb c dot)) col = true ->
  column_search (ts ++ dot :: col ++ dot_data ++ ext) = Some col.
Proof.
  intros Hts Hne Hcol. rewrite column_search_skip by done. cbn [column_search].
  rewrite Ascii.eqb_refl, span_app_all by done.
  change (span (fun x => negb (Ascii.eqb x dot)) (dot_data ++ ext))
    with (@nil Ascii.ascii, dot_data ++ ext).
  cbn [fst snd]. rewrite app_nil_r.
  destruct col as [|c col]; [done|].
  case_bool_decide as Hp; [done|].
  exfalso. apply Hp. by exists ext.
Qed.

Lemma column_search_no_dot (cs : list Ascii.ascii) :
  forallb (fun c => negb (Ascii.eqb c dot)) cs = true -> column_search cs = None.
Proof.
  intros H. rewrite <- (app_nil_r cs), column_search_skip by done. done.
Qed.

Lemma mass_search_no_M (cs : list Ascii.ascii) :
  forallb (fun c => negb (Ascii.eqb c Aliases.char_M)) cs = true -> mass_search cs = None.
Proof.
  intros H. rewrite <- (app_nil_r cs), mass_search_skip by done. done.
Qed.

Lemma mass_search_col (p ds : list Ascii.ascii) :
  forallb (fun c => negb (Ascii.eqb c Aliases.char_M)) p = true ->
  ds <> [] -> forallb Aliases.is_digit ds = true ->
  mass_search (p ++ Aliases.char_M :: ds) = Some (Aliases.char_M :: ds).
Proof.
  intros Hp Hne Hds. rewrite mass_search_skip by done. cbn [mass_search].
  rewrite Ascii.eqb_refl. rewrite <- (app_nil_r ds), span_app_all by done. cbn [fst span].
  rewrite app_nil_r. by destruct ds.
Qed.

End TmpNameProofs.

(** X16: [series_list_from_tmp] first converts the first 19 characters of
    the file name to a time stamp and raises what that conversion raises.
    When the conversion succeeds, the names it gives for a file named
    [<ts>.<col>.data<ext>], [<ts>] holding no dot and [<col>] a non-empty
    name holding no dot, are: the value series is named [<col>] with no unit
    when [<col>] has no [M], and [M<digits>] with unit ["A"] when [<col>] is
    [<p>M<digits>] with no [M] in [<p>]; the time series is named after the
    value series with ["-x"] appended. A file name with no dot gives no
    series. *)
Theorem tmp_series_names_of_file {T : Type} (timestamp_string_to_tstamp : string -> result T)
    (ts col ext : string) :
  (forall file_name e, timestamp_string_to_tstamp (String.substring 0 19 file_name) = Err e ->
   TmpNames.tmp_series_names timestamp_string_to_tstamp file_name = Err e) /\
  (forall file_name t, timestamp_string_to_tstamp (String.substring 0 19 file_name) = Ok t ->
   forallb (fun c => negb (Ascii.eqb c PyText.dot)) (String.list_ascii_of_string file_name) = true ->
   TmpNames.tmp_series_names timestamp_string_to_tstamp file_name = Ok None) /\
  (forallb (fun c => negb (Ascii.eqb c PyText.dot)) (String.list_ascii_of_string ts) = true ->
   col <> ""%string ->
   forallb (fun c => negb (Ascii.eqb c PyText.dot)) (String.list_ascii_of_string col) = true ->
   let file_name := (ts ++ "." ++ col ++ ".data" ++ ext)%string in
   forall t, timestamp_string_to_tstamp (String.substring 0 19 file_name) = Ok t ->
   (forallb (fun c => negb (Ascii.eqb c Aliases.char_M)) (String.list_ascii_of_string col) = true ->
    TmpNames.tmp_series_names timestamp_string_to_tstamp file_name
      = Ok (Some ((col ++ "-x")%string, col, None))) /\
   (forall p ds, col = (p ++ "M" ++ ds)%string ->
    forallb (fun c => negb (Ascii.eqb c Aliases.char_M)) (String.list_ascii_of_string p) = true ->
    ds <> ""%string -> forallb Aliases.is_digit (String.list_ascii_of_string ds) = true ->
    TmpNames.tmp_series_names timestamp_string_to_tstamp file_name
      = Ok (Some (("M" ++ ds ++ "-x")%string, ("M" ++ ds)%string, Some "A"%string)))).
Proof.
  split; [|split].
  - intros f e He. unfold TmpNames.tmp_series_names. by rewrite He.
  - intros f t Ht Hf. unfold TmpNames.tmp_series_names, TmpNames.names_of_file_name.
    by rewrite Ht, column_search_no_dot.
  - intros Hts Hne Hcol file_name t Ht. unfold TmpNames.tmp_series_names. rewrite Ht.
    unfold file_name, TmpNames.names_of_file_name.
    rewrite !list_ascii_app.
    assert (Hne' : String.list_ascii_of_string col <> []) by (by destruct col).
    change (String.list_ascii_of_string ".") with [PyText.dot].
    change (String.list_ascii_of_string ".data") with TmpNames.dot_data.
    cbn [app].
    rewrite (column_search_file _ _ _ Hts Hne' Hcol). split.
    + intros HM. rewrite mass_search_no_M by done.
      by rewrite String.string_of_list_ascii_of_string.
    + intros p ds -> Hp Hds Hdig. rewrite !list_ascii_app.
      change (String.list_ascii_of_string "M") with [Aliases.char_M]. cbn [app].
      rewrite mass_search_col; [|done|by destruct ds|done].
      cbn [String.string_of_list_ascii]. by rewrite String.string_of_list_ascii_of_string.
Qed.

(* ------------------------------------------------------------------ *)
(** ** The views of a spectrum built from series *)

(** X17: the views of a spectrum built by [Spectrum.from_series(xseries,
    yseries, tstamp)] give back what it was built from: [xseries] is the
    given x series and [x_name] its name; [y_name] is the name of the y
    series and [yseries] a [DataSeries] with the y series' name, unit and
    data; [tseries] is the one-point [TimeSeries] ["spectrum time / [s]"]
    with unit ["s"], data [[0]] and the given [tstamp]; the spectrum's name
    is the given one, or the y series' name. *)
Theorem from_series_views (h : Spectra.heap) (xs ys : Spectra.series) (tstamp : option Z)
    (name : option string) :
  let '(h1, sp) := Spectra.from_series h xs ys tstamp name in
  SpectrumViews.xseries h1 sp = Ok (Spectra.OSeries xs) /\
  SpectrumViews.x_name h1 sp = Ok (Spectra.series_name xs) /\
  SpectrumViews.y_name sp = Spectra.series_name ys /\
  SpectrumViews.yseries h1 sp
    = Ok (Spectra.DataSeries (Spectra.series_name ys) (Spectra.series_unit_name ys)
            (Spectra.series_data ys)) /\
  SpectrumViews.tseries h1 sp
    = Ok (Spectra.OSeries (Spectra.TimeSeries "spectrum time / [s]" (Some "s") [0] tstamp)) /\
  Spectra.spectrum_name sp = default (Spectra.series_name ys) name.
Proof.
  unfold Spectra.from_series, Spectra.make_field, Spectra.new_list.
  unfold SpectrumViews.x_name, SpectrumViews.y_name, SpectrumViews.yseries,
    SpectrumViews.xseries, SpectrumViews.tseries, Spectra.axes_series, Spectra.y.
  cbn -[lookup_total insert]. rewrite ?lookup_total_insert, ?decide_True by done.
  repeat split; done.
Qed.

(** X18: [Spectrum.data_objects] appends the field to the field's own
    [axes_series] list, but when that list holds at least the x and time
    series, none of the views of the spectrum changes: [xseries], [x],
    [x_name], [y], [y_name], [yseries], [tseries] and [tstamp] read the
    same after the call as before. *)
Theorem data_objects_keeps_views (h : Spectra.heap) (sp : Spectra.spectrum)
    (Hlen : (2 <= length (Spectra.axes_series h sp))%nat) :
  let h' := fst (Spectra.data_objects h sp) in
  SpectrumViews.xseries h' sp = SpectrumViews.xseries h sp /\
  Spectra.x h' sp = Spectra.x h sp /\
  SpectrumViews.x_name h' sp = SpectrumViews.x_name h sp /\
  Spectra.y h' sp = Spectra.y h sp /\
  SpectrumViews.y_name sp = Spectra.field_name (Spectra.spectrum_field sp) /\
  SpectrumViews.yseries h' sp = SpectrumViews.yseries h sp /\
  SpectrumViews.tseries h' sp = SpectrumViews.tseries h sp /\
  Spectra.tstamp h' sp = Spectra.tstamp h sp.
Proof.
  assert (Hax : Spectra.axes_series (fst (Spectra.data_objects h sp)) sp
                = Spectra.axes_series h sp ++ [Spectra.OField (Spectra.spectrum_field sp)]).
  { unfold Spectra.data_objects, Spectra.axes_series. cbn [fst Spectra.lists].
    rewrite lookup_total_insert. by rewrite decide_True. }
  assert (H0 : Spectra.axes_series (fst (Spectra.data_objects h sp)) sp !! 0%nat
               = Spectra.axes_series h sp !! 0%nat).
  { rewrite Hax, lookup_app_l by lia. done. }
  assert (H1 : Spectra.axes_series (fst (Spectra.data_objects h sp)) sp !! 1%nat
               = Spectra.axes_series h sp !! 1%nat).
  { rewrite Hax, lookup_app_l by lia. done. }
  unfold SpectrumViews.x_name, SpectrumViews.xseries, SpectrumViews.yseries,
    SpectrumViews.tseries, Spectra.x, Spectra.tstamp.
  rewrite H0, H1. repeat split; reflexivity.
Qed.

(* ------------------------------------------------------------------ *)
(** ** Metadata lines *)

Section SplitProofs.
Import PyStr.

Lemma split_sep_free (sep : Ascii.ascii) (a : string) :
  Forall (fun c => c <> sep) (String.list_ascii_of_string a) -> split sep a = [a].
Proof.
  induction a as [|c a IH]; intros Ha; [done|].
  apply Forall_cons in Ha as [Hc Ha]. simpl. rewrite (IH Ha).
  destruct (Ascii.eqb_spec c sep); done.
Qed.

Lemma split_sep_app (sep : Ascii.ascii) (a b : string) :
  Forall (fun c => c <> sep) (String.list_ascii_of_string a) ->
  split sep (a ++ String sep b)%string = a :: split sep b.
Proof.
  induction a as [|c a IH]; intros Ha; simpl.
  - by rewrite Ascii.eqb_refl.
  - apply Forall_cons in Ha as [Hc Ha]. rewrite (IH Ha).
    destruct (Ascii.eqb_spec c sep); done.
Qed.

Lemma split_concat (sep : Ascii.ascii) (cells : list string) :
  cells <> [] ->
  Forall (fun cell => Forall (fun c => c <> sep) (String.list_ascii_of_string cell)) cells ->
  split sep (String.concat (String sep "") cells) = cells.
Proof.
  induction cells as [|a cells IH]; intros Hne Hcells; [done|].
  apply Forall_cons in Hcells as [Ha Hcells].
  destruct cells as [|b cells].
  - simpl. by apply split_sep_free.
  - change (String.concat (String sep "") (a :: b :: cells))
      with (a ++ String sep (String.concat (String sep "") (b :: cells)))%string.
    rewrite split_sep_app by done. by rewrite IH.
Qed.

Lemma concat_chars (P : Ascii.ascii -> Prop) (sep : Ascii.ascii) (cells : list string) :
  P sep -> Forall (fun cell => Forall P (String.list_ascii_of_string cell)) cells ->
  Forall P (String.list_ascii_of_string (String.concat (String sep "") cells)).
Proof.
  intros Hsep. induction cells as [|a cells IH]; intros Hcells; [constructor|].
  apply Forall_cons in Hcells as [Ha Hcells].
  destruct cells as [|b cells]; [done|].
  change (String.concat (String sep "") (a :: b :: cells))
    with (a ++ (String sep "" ++ String.concat (String sep "") (b :: cells)))%string.
  rewrite list_ascii_app. apply Forall_app. split; [done|]. simpl.
  constructor; [done|]. by apply IH.
Qed.

Lemma lstrip_chars_free (c : Ascii.ascii) (l : list Ascii.ascii) :
  Forall (fun x => x <> c) l -> lstrip_chars c l = l.
Proof.
  destruct l as [|x l]; intros Hl; [done|]. apply Forall_cons in Hl as [Hx _].
  simpl. by destruct (Ascii.eqb_spec x c).
Qed.

Lemma lstrip_chars_self (c : Ascii.ascii) (l : list Ascii.ascii) :
  lstrip_chars c (c :: l) = lstrip_chars c l.
Proof. simpl. by rewrite Ascii.eqb_refl. Qed.

Lemma strip_snoc (c : Ascii.ascii) (s : string) :
  Forall (fun x => x <> c) (String.list_ascii_of_string s) ->
  strip c (s ++ String c "")%string = s.
Proof.
  intros Hs. unfold strip. rewrite list_ascii_app. simpl.
  destruct (String.list_ascii_of_string s) as [|x l] eqn:Hl.
  - simpl. rewrite Ascii.eqb_refl. simpl. destruct s; [done|discriminate].
  - pose proof Hs as Hs'. apply Forall_cons in Hs' as [Hx _].
    simpl. destruct (Ascii.eqb_spec x c) as [|_]; [done|].
    change (x :: l ++ [c]) with ((x :: l) ++ [c]). rewrite rev_unit.
    rewrite lstrip_chars_self, lstrip_chars_free by (by apply Forall_rev).
    rewrite rev_involutive, <- Hl. apply String.string_of_list_ascii_of_string.
Qed.

End SplitProofs.

(** X19: [parse_metadata_line] reads back a line written as five
    tab-separated cells [name, comment, attach_to_series, type, value] with
    its newline, when no cell holds a tab or a newline: the key is [name],
    or [attach_to_series + "_" + name] when [attach_to_series] is not empty;
    a ["string"] value is the cell itself, a ["bool"] value is [value ==
    "true"], an ["int"] or ["double"] value is [int(value)] or
    [float(value)] (whose errors it raises). A line of any other number of
    such cells raises [ValueError]. *)
Theorem parse_metadata_line_round_trip {float : Type} (py_int : string -> result Z)
    (py_float : string -> result float) (name comment attach value : string) :
  Forall (fun cell => Forall (fun c => c <> PyStr.tab /\ c <> PyStr.newline)
                        (String.list_ascii_of_string cell)) [name; comment; attach; value] ->
  let key := if String.eqb attach "" then name else (attach ++ "_" ++ name)%string in
  let parse ty := Metadata.parse_metadata_line py_int py_float
                    (Shapes.tsv_line [name; comment; attach; ty; value]) in
  parse "string"%string = Ok (key, Metadata.MString value) /\
  parse "bool"%string = Ok (key, Metadata.MBool (String.eqb value "true")) /\
  parse "int"%string = (match py_int value with
                        | Ok z => Ok (key, Metadata.MInt z) | Err e => Err e end) /\
  parse "double"%string = (match py_float value with
                           | Ok f => Ok (key, Metadata.MFloat f) | Err e => Err e end) /\
  (forall cells, length cells <> 5%nat ->
   Forall (fun cell => Forall (fun c => c <> PyStr.tab /\ c <> PyStr.newline)
                         (String.list_ascii_of_string cell)) cells ->
   Metadata.parse_metadata_line py_int py_float (Shapes.tsv_line cells) = Err ValueError).
Proof.
  intros Hcells key parse.
  assert (Hline : forall cells,
            Forall (fun cell => Forall (fun c => c <> PyStr.tab /\ c <> PyStr.newline)
                                  (String.list_ascii_of_string cell)) cells ->
            PyStr.split PyStr.tab (PyStr.strip PyStr.newline (Shapes.tsv_line cells))
            = match cells with [] => [""%string] | _ => cells end).
  { intros cells Hc. unfold Shapes.tsv_line. rewrite strip_snoc.
    - destruct cells as [|a cells]; [done|]. apply split_concat; [done|].
      eapply Forall_impl; [exact Hc|]. intros cell Hcell.
      eapply Forall_impl; [exact Hcell|]. by intros x [? _].
    - apply concat_chars; [done|].
      eapply Forall_impl; [exact Hc|]. intros cell Hcell.
      eapply Forall_impl; [exact Hcell|]. by intros x [_ ?]. }
  apply Forall_cons in Hcells as [Hn Hcells]. apply Forall_cons in Hcells as [Hco Hcells].
  apply Forall_cons in Hcells as [Ha Hcells]. apply Forall_cons in Hcells as [Hv _].
  assert (Hty : forall ty,
            Forall (fun c => c <> PyStr.tab /\ c <> PyStr.newline) (String.list_ascii_of_string ty) ->
            PyStr.split PyStr.tab (PyStr.strip PyStr.newline
              (Shapes.tsv_line [name; comment; attach; ty; value]))
            = [name; comment; attach; ty; value]).
  { intros ty Hty. apply Hline. repeat constructor; done. }
  unfold parse, Metadata.parse_metadata_line.
  split; [|split; [|split; [|split]]].
  - by rewrite Hty by (apply (bool_decide_unpack _); vm_compute; exact I).
  - by rewrite Hty by (apply (bool_decide_unpack _); vm_compute; exact I).
  - by rewrite Hty by (apply (bool_decide_unpack _); vm_compute; exact I).
  - by rewrite Hty by (apply (bool_decide_unpack _); vm_compute; exact I).
  - intros cells Hlen Hc. rewrite (Hline cells Hc).
    destruct cells as [|c1 [|c2 [|c3 [|c4 [|c5 [|c6 cells]]]]]]; simpl in Hlen; done || lia.
Qed.

(* ------------------------------------------------------------------ *)
(** ** The statements above at example inputs *)

Ltac decide_hyp := apply (bool_decide_unpack _); vm_compute; exact I.

Lemma to_snake_case_normal_form_witness :
  String.length (Names.to_snake_case "Mass Scan Started") = String.length "Mass Scan Started" /\
  Names.to_snake_case "mass_scan_started" = "mass_scan_started"%string.
Proof.
  refine (proj2 (to_snake_case_normal_form "Mass Scan Started" _)).
  vm_compute. repeat constructor.
Defined.

Lemma timestamp_string_two_words_witness :
  TmpNames.timestamp_string "2021-04-20 11_16_18 test.tsv" = "2021-04-20 11_16_18"%string.
Proof.
  refine (proj1 (timestamp_string_two_words "2021-04-20" "11_16_18" "test.tsv" _ _));
    decide_hyp.
Defined.

Lemma to_mass_round_trip_witness :
  Aliases.to_mass "C0M44" = Some "44"%string /\
  Aliases.to_mass ("C0M44" ++ String PyStr.newline "")%string = Some "44"%string.
Proof.
  split.
  - refine (proj1 (to_mass_round_trip "0" "44" _ _ _ _));
      [discriminate|discriminate|reflexivity|reflexivity].
  - refine (proj1 (proj2 (to_mass_round_trip "0" "44" _ _ _ _)));
      [discriminate|discriminate|reflexivity|reflexivity].
Defined.

Lemma form_names_and_unit_unit_witness :
  (Names.form_names_and_unit "C0M44" "Ion current [A]").1.2 = "A"%string /\
  (Names.form_names_and_unit "Potential" "Ewe/V").1.2 = "V"%string.
Proof.
  split.
  - refine (proj1 (form_names_and_unit_unit "C0M44" "Ion current" "A" _ _ _ _) _);
      [discriminate|discriminate|decide_hyp..].
  - refine (proj2 (form_names_and_unit_unit "Potential" "Ewe" "V" _ _ _ _) _ _);
      [discriminate|discriminate|decide_hyp|decide_hyp|decide_hyp|discriminate].
Defined.

Lemma read_metadata_layout_witness :
  exists md sh ch rest,
    ReadMetadata.read_metadata (float := Z) Examples.py_int (fun _ => Err ValueError)
      Examples.zilien_lines = Ok (md, sh, ch, rest) /\
    exists k : nat, (4 <= k <= length Examples.zilien_lines)%nat /\ rest = drop (S (S k)) Examples.zilien_lines.
Proof.
  eexists _, _, _, _. split; [vm_compute; reflexivity|].
  destruct (read_metadata_layout (float := Z) Examples.py_int (fun _ => Err ValueError)
              Examples.zilien_lines _ _ _ _ ltac:(vm_compute; reflexivity))
    as (k & Hk & _ & _ & _ & Hrest & _).
  by exists k.
Defined.

Lemma create_series_objects_output_witness :
  let column_headers := ["Time [s]"; "experiment_number"; "Ion current [A]"]%string in
  let names_and_units := map (Names.form_names_and_unit "C0M44") column_headers in
  let data_columns := [[Some 0; Some 1]; [Some 1; Some 1]; [Some 7; None]] in
  SeriesObjects.create_series_objects column_headers names_and_units data_columns
    = Ok [SeriesObjects.TimeSeries "C0M44 time [s]" "s" [Some 0; Some 1];
          SeriesObjects.ValueSeries "M44 [A]" "A" [Some 7; None]
            (SeriesObjects.TimeSeries "C0M44 time [s]" "s" [Some 0; Some 1])] /\
  Shapes.linked None
    [SeriesObjects.TimeSeries "C0M44 time [s]" "s" [Some 0; Some 1];
     SeriesObjects.ValueSeries "M44 [A]" "A" [Some 7; None]
       (SeriesObjects.TimeSeries "C0M44 time [s]" "s" [Some 0; Some 1])].
Proof.
  intros column_headers names_and_units data_columns.
  assert (H : SeriesObjects.create_series_objects column_headers names_and_units data_columns
    = Ok [SeriesObjects.TimeSeries "C0M44 time [s]" "s" [Some 0; Some 1];
          SeriesObjects.ValueSeries "M44 [A]" "A" [Some 7; None]
            (SeriesObjects.TimeSeries "C0M44 time [s]" "s" [Some 0; Some 1])])
    by (vm_compute; reflexivity).
  split; [exact H|].
  exact (proj1 (create_series_objects_output _ _ _ _ H)).
Defined.

Lemma getitem_slice_members_witness :
  CVSelect.getitem (CVSelect.KSlice (Some 5) (Some 0) (Some (-2)))
    = Ok (CVSelect.SelectList [5; 3; 1]) /\
  (1 ∈ [5; 3; 1] <-> (if 0 <? -2 then 5 <= 1 < 0 else 0 < 1 <= 5) /\ (1 - 5) mod (-2) = 0).
Proof.
  destruct (getitem_slice_members 5 0 (-2) ltac:(lia)) as [zs [Hzs Hmem]].
  assert (Hl : zs = [5; 3; 1]).
  { vm_compute in Hzs. congruence. }
  subst zs. split; [exact Hzs|]. apply Hmem.
Defined.

Lemma data_objects_keeps_views_witness :
  let '(h, sp) := Spectra.from_data (Spectra.mkHeap ∅ 0) [1; 2] [10; 20] (Some 100)
                    "x" "y" None None None in
  (2 <= length (Spectra.axes_series h sp))%nat /\
  Spectra.tstamp (fst (Spectra.data_objects h sp)) sp = Spectra.tstamp h sp /\
  Spectra.tstamp h sp = Ok 100.
Proof.
  cbv zeta. destruct (Spectra.from_data _ _ _ _ _ _ _ _ _) as [h sp] eqn:E.
  assert (Hlen : (2 <= length (Spectra.axes_series h sp))%nat).
  { unfold Spectra.from_data, Spectra.from_series, Spectra.make_field, Spectra.new_list in E.
    injection E as <- <-. vm_compute. lia. }
  split; [exact Hlen|]. split.
  - exact (proj2 (proj2 (proj2 (proj2 (proj2 (proj2 (proj2
             (data_objects_keeps_views h sp Hlen)))))))).
  - unfold Spectra.from_data, Spectra.from_series, Spectra.make_field, Spectra.new_list in E.
    injection E as <- <-. vm_compute. reflexivity.
Defined.

Lemma tmp_series_names_of_file_witness :
  TmpNames.tmp_series_names Examples.zilien_tstamp "2021-04-20 11_16_18.C0M44.data.tsv"
    = Ok (Some ("M44-x"%string, "M44"%string, Some "A"%string)) /\
  TmpNames.tmp_series_names Examples.zilien_tstamp "2021-04-20 11_16_18.Pressure.data.tsv"
    = Ok (Some ("Pressure-x"%string, "Pressure"%string, None)) /\
  TmpNames.tmp_series_names Examples.zilien_tstamp "tmp.C0M44.data.tsv" = Err ValueError.
Proof.
  split; [|split].
  - refine (proj2 (proj2 (proj2 (tmp_series_names_of_file Examples.zilien_tstamp
                                 "2021-04-20 11_16_18" "C0M44" ".tsv")) _ _ _ 0 _)
              "C0" "44" eq_refl _ _ _);
      [reflexivity|discriminate|reflexivity|vm_compute; reflexivity|reflexivity|discriminate|reflexivity].
  - refine (proj1 (proj2 (proj2 (tmp_series_names_of_file Examples.zilien_tstamp
                                 "2021-04-20 11_16_18" "Pressure" ".tsv")) _ _ _ 0 _) _);
      [reflexivity|discriminate|reflexivity|vm_compute; reflexivity|reflexivity].
  - refine (proj1 (tmp_series_names_of_file Examples.zilien_tstamp "" "" "")
              "tmp.C0M44.data.tsv" ValueError _).
    vm_compute. reflexivity.
Defined.

Lemma spectrum_read_tstamp_witness :
  SpectrumStamp.spectrum_read Examples.last_cell Examples.py_int
    ["Mass [AMU]"; "Current [A]"] Examples.spectrum_lines
    = inr ("Mass [AMU]"%string, 1618912578) /\
  SpectrumStamp.spectrum_read Examples.last_cell Examples.py_int
    ["Mass [AMU]"; "Current [A]"] (skipn 1 Examples.spectrum_lines)
    = inl SpectrumStamp.UnboundLocalError /\
  SpectrumReader.spectrum_columns ["Mass [AMU]"; "Current [A]"]
    = Ok ("Mass [AMU]"%string, "Current [A]"%string).
Proof.
  assert (Hread : SpectrumStamp.spectrum_read Examples.last_cell Examples.py_int
                    ["Mass [AMU]"; "Current [A]"] Examples.spectrum_lines
                  = inr ("Mass [AMU]"%string, 1618912578)) by (vm_compute; reflexivity).
  split; [exact Hread|]. split.
  - refine (proj1 (spectrum_read_tstamp Examples.last_cell Examples.py_int
                     ["Mass [AMU]"; "Current [A]"] (skipn 1 Examples.spectrum_lines)) _
              "Mass [AMU]" "Current [A]" _).
    + intros l Hl. vm_compute in Hl.
      apply list_elem_of_singleton in Hl as ->. vm_compute. reflexivity.
    + vm_compute. reflexivity.
  - exact (proj1 (proj2 (spectrum_read_tstamp Examples.last_cell Examples.py_int
                           ["Mass [AMU]"; "Current [A]"] Examples.spectrum_lines)
                    _ _ Hread)).
Defined.

Lemma read_metadata_errors_witness :
  (exists e, ReadMetadata.read_metadata (float := Z) Examples.py_int (fun _ => Ok 0)
               (take 3 Examples.zilien_lines) = Err e) /\
  ReadMetadata.read_metadata (float := Z) Examples.py_int (fun _ => Ok 0)
    (<[1%nat := Examples.meta_line "num_header_lines" "double" "5.0"]> Examples.zilien_lines)
    = Err TypeError.
Proof.
  split.
  - exact (proj1 (read_metadata_errors (float := Z) Examples.py_int (fun _ => Ok 0)
                    (take 3 Examples.zilien_lines)) ltac:(vm_compute; lia)).
  - destruct (ReadMetadata.read_items (float := Z) Examples.py_int (fun _ => Ok 0) 4
                (<[1%nat := Examples.meta_line "num_header_lines" "double" "5.0"]>
                   Examples.zilien_lines) []) as [[md4 r4]|e] eqn:Hri;
      [|vm_compute in Hri; discriminate].
    assert (Hget : ReadMetadata.dict_get md4 "num_header_lines" = Some (Metadata.MFloat 0)).
    { vm_compute in Hri. injection Hri as <- _. reflexivity. }
    exact (proj1 (proj2 (proj2 (read_metadata_errors (float := Z) Examples.py_int (fun _ => Ok 0)
              (<[1%nat := Examples.meta_line "num_header_lines" "double" "5.0"]>
                 Examples.zilien_lines)) md4 r4 Hri)) 0 Hget).
Defined.

Lemma parse_metadata_line_round_trip_witness :
  Metadata.parse_metadata_line (float := Z) Examples.py_int (fun _ => Err ValueError)
    (Examples.meta_line "num_header_lines" "int" "5")
  = Ok ("num_header_lines"%string, Metadata.MInt 5).
Proof.
  exact (proj1 (proj2 (proj2 (parse_metadata_line_round_trip (float := Z) Examples.py_int
    (fun _ => Err ValueError) "num_header_lines" "" "" "5" ltac:(decide_hyp))))).
Defined.
